(** * AI Triage Agent: classification, routing and mock fallbacks

    A shallow embedding of the Python sources under [app/]:
    - [app/services/model_service.py]   (the ticket classifier),
    - [app/utils/config.py]             (settings and the routing table),
    - [app/services/jira_service.py]    (issue tracker),
    - [app/services/slack_service.py]   (chat notifier),
    - [app/services/watsonx_service.py] (generation backend),
    - [app/routes/classify.py], [app/routes/route.py] (request handlers).

    Modelling conventions.
    - Python [float] is IEEE binary64: Rocq's primitive floats, same
      rounding.  Literals such as [0.3] denote the nearest binary64 value
      in both languages.
    - Python [str] is [string]; texts are taken over 8-bit characters and
      [lower] maps [A-Z] to [a-z], which is what [str.lower] does on them.
    - Python dicts keep insertion order: an association list with
      update-in-place ([dict_set]).
    - Exceptions are values [exn]; code that can raise lives in [Exc]
      (pure) or in [M] (exceptions and the outside world).
    - The outside world ([World]) holds what the code cannot decide: the
      draws of [random.randint], the outcomes of the remote calls, and the
      requests sent out.  Logging has no effect on results and is left
      out. *)

From Stdlib Require Import String Ascii List ZArith Bool Lia Floats DecimalString.
Import ListNotations.

Set Warnings "-inexact-float,-register-all".
Set Implicit Arguments.

Open Scope list_scope.
Open Scope string_scope.

(** ** Python primitives *)

Module Py.

(** *** Exceptions *)

(** An exception: its class name and [str(e)]. *)
Record exn : Type := Exception { exn_class : string; exn_str : string }.

Definition Exc (A : Type) : Type := (exn + A)%type.

Definition ok {A} (a : A) : Exc A := inr a.
Definition throw {A} (e : exn) : Exc A := inl e.

Definition ebind {A B} (c : Exc A) (k : A -> Exc B) : Exc B :=
  match c with
  | inl e => inl e
  | inr a => k a
  end.

(** [try: body / except Exception: handler] in pure code. *)
Definition etry {A} (body : Exc A) (handler : exn -> Exc A) : Exc A :=
  match body with
  | inl e => handler e
  | inr a => inr a
  end.

Definition KeyError (k : string) : exn := Exception "KeyError" ("'" ++ k ++ "'").
Definition IndexError : exn := Exception "IndexError" "list index out of range".
Definition ValueError (msg : string) : exn := Exception "ValueError" msg.
Definition ZeroDivisionError : exn :=
  Exception "ZeroDivisionError" "float division by zero".
Definition AttributeError (msg : string) : exn := Exception "AttributeError" msg.
Definition ValidationError (field : string) : exn :=
  Exception "ValidationError" ("validation error: " ++ field).

(** *** Strings *)

Definition lower_ascii (c : ascii) : ascii :=
  let n := nat_of_ascii c in
  if (65 <=? n)%nat && (n <=? 90)%nat then ascii_of_nat (n + 32) else c.

Definition upper_ascii (c : ascii) : ascii :=
  let n := nat_of_ascii c in
  if (97 <=? n)%nat && (n <=? 122)%nat then ascii_of_nat (n - 32) else c.

Definition is_cased (c : ascii) : bool :=
  let n := nat_of_ascii c in
  ((65 <=? n)%nat && (n <=? 90)%nat) || ((97 <=? n)%nat && (n <=? 122)%nat).

(** [s.lower()] *)
Fixpoint lower (s : string) : string :=
  match s with
  | EmptyString => EmptyString
  | String c s' => String (lower_ascii c) (lower s')
  end.

(** [s.title()]: a cased character is upper-cased when it follows an
    uncased one (or starts the string) and lower-cased otherwise. *)
Fixpoint title_from (prev_cased : bool) (s : string) : string :=
  match s with
  | EmptyString => EmptyString
  | String c s' =>
      String (if prev_cased then lower_ascii c else upper_ascii c)
             (title_from (is_cased c) s')
  end.

Definition title (s : string) : string := title_from false s.

(** [needle in hay] on strings: [needle] occurs as a substring. *)
Fixpoint contains (needle hay : string) : bool :=
  prefix needle hay ||
  match hay with
  | EmptyString => false
  | String _ hay' => contains needle hay'
  end.

(** [str(n)] for an integer. *)
Definition str_int (n : Z) : string := NilZero.string_of_int (Z.to_int n).

(** [str(x)] / [f"{x}"] for an optional string: [None] prints as "None". *)
Definition str_opt (o : option string) : string :=
  match o with
  | Some s => s
  | None => "None"
  end.

(** Truthiness of an optional string: [None] and [""] are false. *)
Definition truthy_opt (o : option string) : bool :=
  match o with
  | Some (String _ _) => true
  | _ => false
  end.

(** [a or b] where [a] is an optional string and [b] a string. *)
Definition or_else (a : option string) (b : string) : string :=
  match a with
  | Some (String c s) => String c s
  | _ => b
  end.

(** *** Floats *)

Open Scope float_scope.

(** [min(a, b)]: the first argument unless the second is smaller. *)
Definition min (a b : float) : float := if b <? a then b else a.

(** [sum(xs)]: left-to-right addition starting from 0. *)
Definition sum (xs : list float) : float := fold_left PrimFloat.add xs 0.

(** [a / b]; division by zero raises. *)
Definition truediv (a b : float) : Exc float :=
  if b =? 0 then throw ZeroDivisionError else ok (a / b).

Close Scope float_scope.

(** *** Dicts *)

Definition dict (V : Type) : Type := list (string * V).

(** [d.get(k)] *)
Fixpoint dict_get {V} (k : string) (d : dict V) : option V :=
  match d with
  | [] => None
  | (k', v) :: d' => if String.eqb k k' then Some v else dict_get k d'
  end.

(** [k in d] *)
Definition dict_mem {V} (k : string) (d : dict V) : bool :=
  match dict_get k d with
  | Some _ => true
  | None => false
  end.

(** [d[k] = v]: an existing key keeps its position, a new one goes last. *)
Fixpoint dict_set {V} (k : string) (v : V) (d : dict V) : dict V :=
  match d with
  | [] => [(k, v)]
  | (k', v') :: d' =>
      if String.eqb k k' then (k', v) :: d' else (k', v') :: dict_set k v d'
  end.

(** [d.get(k, default)] *)
Definition dict_get_default {V} (k : string) (default : V) (d : dict V) : V :=
  match dict_get k d with
  | Some v => v
  | None => default
  end.

(** [d[k]]: raises [KeyError] on a missing key. *)
Definition getitem {V} (d : dict V) (k : string) : Exc V :=
  match dict_get k d with
  | Some v => ok v
  | None => throw (KeyError k)
  end.

Definition keys {V} (d : dict V) : list string := map fst d.
Definition values {V} (d : dict V) : list V := map snd d.

(** [l[i]]: raises [IndexError] out of range. *)
Definition index {A} (l : list A) (i : nat) : Exc A :=
  match nth_error l i with
  | Some a => ok a
  | None => throw IndexError
  end.

(** [max(items, key=lambda x: x[1])]: the first item whose key no later
    item exceeds; raises on an empty sequence. *)
Definition max_by_value (items : list (string * float)) : Exc (string * float) :=
  match items with
  | [] => throw (ValueError "max() arg is an empty sequence")
  | x :: xs =>
      ok (fold_left (fun best y => if (snd best <? snd y)%float then y else best) xs x)
  end.

(** *** Dynamically typed values (JSON-like results of the collaborators) *)

Inductive value : Type :=
| VNone
| VBool (b : bool)
| VInt (n : Z)
| VFloat (x : float)
| VStr (s : string)
| VList (l : list value)
| VDict (d : list (string * value)).

Definition truthy (v : value) : bool :=
  match v with
  | VNone => false
  | VBool b => b
  | VInt n => negb (n =? 0)%Z
  | VFloat x => negb (x =? 0)%float
  | VStr s => negb (String.eqb s "")
  | VList l => match l with [] => false | _ => true end
  | VDict d => match d with [] => false | _ => true end
  end.

Definition of_opt (o : option string) : value :=
  match o with
  | Some s => VStr s
  | None => VNone
  end.

(** [d.get(k)] with Python's default [None]. *)
Definition get (d : dict value) (k : string) : value :=
  match dict_get k d with
  | Some v => v
  | None => VNone
  end.

(** A value read where the code expects [Optional[str]]. *)
Definition as_opt_str (v : value) : option string :=
  match v with
  | VStr s => Some s
  | _ => None
  end.

Definition nl : string := String (ascii_of_nat 10) EmptyString.

End Py.

(** ** The outside world and the monad of effectful code *)

Module runtime.
Import Py.

(** The body of a Jira "create issue" answer, as far as the code reads it. *)
Record JiraIssueData : Type := { key : option string; id : option string }.

(** What [requests.post] returns for Jira: [json] is the outcome of
    [response.json()]. *)
Record JiraResponse : Type := {
  status_code : Z;
  text : string;
  json : Exc JiraIssueData
}.

(** What [Model.generate] returns: [results] is absent or a list of
    entries, each without a ['generated_text'] or with one, which can hold
    any value ([VNone] for a null). *)
Record GenerateResponse : Type := { results : option (list (option value)) }.

(** The world: the pending draws of [random.randint], the scripted outcomes
    of the remote calls (an exception or an answer, consumed in order), and
    the requests sent so far (endpoint and payload, latest first). *)
Record World : Type := {
  entropy : list Z;
  jira_api : list (Exc JiraResponse);
  slack_api : list (Exc (dict value));
  watsonx_api : list (Exc GenerateResponse);
  outbox : list (string * value)
}.

Definition M (A : Type) : Type := World -> Exc A * World.

Definition ret {A} (a : A) : M A := fun w => (inr a, w).
Definition raise {A} (e : exn) : M A := fun w => (inl e, w).

Definition bind {A B} (c : M A) (k : A -> M B) : M B :=
  fun w =>
    match c w with
    | (inl e, w') => (inl e, w')
    | (inr a, w') => k a w'
    end.

(** Pure code that may raise, run inside effectful code. *)
Definition lift {A} (c : Exc A) : M A := fun w => (c, w).

(** [try: body / except Exception as e: handler e] *)
Definition try_except {A} (body : M A) (handler : exn -> M A) : M A :=
  fun w =>
    match body w with
    | (inl e, w') => handler e w'
    | (inr a, w') => (inr a, w')
    end.

Definition ConnectionError : exn :=
  Exception "ConnectionError" "connection refused".

(** [random.randint(a, b)]: the next draw, brought into [a..b]. *)
Definition randint (a b : Z) : M Z :=
  fun w =>
    match entropy w with
    | [] => (inr a, w)
    | r :: rest =>
        (inr (a + r mod (b - a + 1))%Z,
         {| entropy := rest; jira_api := jira_api w; slack_api := slack_api w;
            watsonx_api := watsonx_api w; outbox := outbox w |})
    end.

(** [requests.post(url, json=payload, ...)] to Jira. *)
Definition jira_post (url : string) (payload : value) : M JiraResponse :=
  fun w =>
    let sent := (url, payload) :: outbox w in
    match jira_api w with
    | [] =>
        (inl ConnectionError,
         {| entropy := entropy w; jira_api := []; slack_api := slack_api w;
            watsonx_api := watsonx_api w; outbox := sent |})
    | r :: rest =>
        (r, {| entropy := entropy w; jira_api := rest; slack_api := slack_api w;
               watsonx_api := watsonx_api w; outbox := sent |})
    end.

(** [requests.post(url, json=payload, headers=headers)] to Slack followed
    by [response.json()]. *)
Definition slack_post (url : string) (payload : value) : M (dict value) :=
  fun w =>
    let sent := (url, payload) :: outbox w in
    match slack_api w with
    | [] =>
        (inl ConnectionError,
         {| entropy := entropy w; jira_api := jira_api w; slack_api := [];
            watsonx_api := watsonx_api w; outbox := sent |})
    | r :: rest =>
        (r, {| entropy := entropy w; jira_api := jira_api w; slack_api := rest;
               watsonx_api := watsonx_api w; outbox := sent |})
    end.

(** [self.model.generate(prompt, max_new_tokens=max_tokens)] *)
Definition model_generate (prompt : string) (max_tokens : Z) : M GenerateResponse :=
  fun w =>
    let sent :=
      ("watsonx", VDict [("prompt", VStr prompt); ("max_new_tokens", VInt max_tokens)])
      :: outbox w in
    match watsonx_api w with
    | [] =>
        (inl ConnectionError,
         {| entropy := entropy w; jira_api := jira_api w; slack_api := slack_api w;
            watsonx_api := []; outbox := sent |})
    | r :: rest =>
        (r, {| entropy := entropy w; jira_api := jira_api w; slack_api := slack_api w;
               watsonx_api := rest; outbox := sent |})
    end.

End runtime.

Notation "x <- c ;; k" := (runtime.bind c (fun x => k))
  (at level 61, c at next level, right associativity).

(** ** [app/utils/config.py] *)

Module config.
Import Py.

(** The settings read from the environment.  A variable read with a default
    ([os.getenv(name, default)]) is always a string; one read without is
    [None] when unset. *)
Record Settings : Type := {
  JIRA_URL : string;
  JIRA_EMAIL : option string;
  JIRA_API_TOKEN : option string;
  JIRA_PROJECT_KEY : string;
  SLACK_BOT_TOKEN : option string;
  SLACK_CHANNEL_ID : string;
  WATSONX_API_KEY : option string;
  WATSONX_URL : string;
  WATSONX_PROJECT_ID : option string;
  WATSONX_MODEL_ID : string;
  MODEL_NAME : string;
  MODEL_CACHE_DIR : string
}.

(** [Settings.CATEGORY_ROUTING] *)
Definition CATEGORY_ROUTING : dict (dict string) :=
  [ ("billing",   [("jira_priority", "High");   ("slack_channel", "#billing")]);
    ("technical", [("jira_priority", "Medium"); ("slack_channel", "#technical")]);
    ("access",    [("jira_priority", "High");   ("slack_channel", "#access")]);
    ("general",   [("jira_priority", "Low");    ("slack_channel", "#general")]) ].

(** The settings of a process started with an empty environment. *)
Definition default_settings : Settings :=
  {| JIRA_URL := "https://your-domain.atlassian.net";
     JIRA_EMAIL := None;
     JIRA_API_TOKEN := None;
     JIRA_PROJECT_KEY := "SUP";
     SLACK_BOT_TOKEN := None;
     SLACK_CHANNEL_ID := "#support-tickets";
     WATSONX_API_KEY := None;
     WATSONX_URL := "https://us-south.ml.cloud.ibm.com";
     WATSONX_PROJECT_ID := None;
     WATSONX_MODEL_ID := "meta-llama/llama-3-8b-instruct";
     MODEL_NAME := "bert-base-uncased";
     MODEL_CACHE_DIR := "./models" |}.

End config.

(** ** [app/services/model_service.py] *)

Notation "x <-? c ;; k" := (Py.ebind c (fun x => k))
  (at level 61, c at next level, right associativity).

Module model_service.
Import Py.

(** [TicketClassifier.CATEGORIES] *)
Definition CATEGORIES : list string :=
  ["billing"; "technical"; "access"; "general"; "bug_report"; "feature_request"].

(** The dictionary returned by [classify]; its four keys are fixed, so it
    is a record. *)
Record ClassificationResult : Type := {
  category : string;
  confidence : float;
  scores : dict float;
  model : string
}.

(** The [keywords] table of [_classify_mock]. *)
Definition keywords : dict (list string) :=
  [ ("billing", ["payment"; "invoice"; "billing"; "charge"; "refund";
                 "subscription"; "price"; "cost"]);
    ("technical", ["error"; "bug"; "crash"; "not working"; "broken"; "issue";
                   "problem"; "technical"]);
    ("access", ["login"; "password"; "access"; "account"; "permission";
                "unauthorized"; "locked"]);
    ("bug_report", ["bug"; "error"; "crash"; "broken"; "defect"]);
    ("feature_request", ["feature"; "request"; "suggestion"; "improvement";
                         "enhancement"; "add"]);
    ("general", []) ].

(** The inner loop of [_classify_mock] for one category:
    [score = 0.0], then [score += 0.3] for each keyword found. *)
Definition keyword_score (text_lower category : string) : float :=
  match dict_get category keywords with
  | Some kws =>
      fold_left
        (fun score keyword =>
           if contains keyword text_lower then (score + 0.3)%float else score)
        kws 0%float
  | None => 0%float
  end.

(** The comprehension [{k: v / total for k, v in scores.items()}]. *)
Fixpoint normalize (items : list (string * float)) (total : float)
                   (acc : dict float) : Exc (dict float) :=
  match items with
  | [] => ok acc
  | (k, v) :: items' =>
      q <-? truediv v total ;;
      normalize items' total (dict_set k q acc)
  end.

(** [TicketClassifier._classify_mock] *)
Definition _classify_mock (ticket_text : string) : Exc ClassificationResult :=
  let text_lower := lower ticket_text in
  let scores :=
    fold_left
      (fun scores category =>
         dict_set category (min (keyword_score text_lower category) 1%float) scores)
      CATEGORIES [] in
  let total := sum (values scores) in
  scores <-? (if (0 <? total)%float
              then normalize scores total []
              else ok (dict_set "general" 1%float scores)) ;;
  top <-? max_by_value scores ;;
  let top_category := fst top in
  confidence <-? getitem scores top_category ;;
  ok {| category := top_category;
        confidence := confidence;
        scores := scores;
        model := "mock-classifier" |}.

(** [numpy.argmax] on a row without NaN: the index of the first maximum;
    raises on an empty array. *)
Fixpoint argmax_from (best_i : nat) (best : float) (i : nat) (xs : list float) : nat :=
  match xs with
  | [] => best_i
  | y :: xs' =>
      if (best <? y)%float then argmax_from i y (S i) xs'
      else argmax_from best_i best (S i) xs'
  end.

Definition argmax (xs : list float) : Exc nat :=
  match xs with
  | [] => throw (ValueError "attempt to get argmax of an empty sequence")
  | x :: xs' => ok (argmax_from 0 x 1 xs')
  end.

(** The comprehension
    [{CATEGORIES[i]: float(scores[i]) for i in range(len(CATEGORIES))}]. *)
Fixpoint category_scores (probs : list float) (idx : list nat)
                         (acc : dict float) : Exc (dict float) :=
  match idx with
  | [] => ok acc
  | i :: idx' =>
      c <-? index CATEGORIES i ;;
      p <-? index probs i ;;
      category_scores probs idx' (dict_set c p acc)
  end.

(** A classifier instance.  [forward] stands for the tokenizer, the model
    and the softmax: the probability row [probabilities[0]] for a text, or
    the exception the inference raised. *)
Record TicketClassifier : Type := {
  model_name : string;
  use_mock : bool;
  TORCH_AVAILABLE : bool;
  forward : string -> Exc (list float)
}.

(** [TicketClassifier.__init__] with [_load_model]: [loaded] is the outcome
    of loading the tokenizer and the model. *)
Definition TicketClassifier_init (settings : config.Settings) (torch_available : bool)
    (loaded : Exc (string -> Exc (list float))) : TicketClassifier :=
  let unloaded := fun _ : string =>
    throw (Exception "TypeError" "'NoneType' object is not callable") in
  if torch_available then
    match loaded with
    | inr fwd => {| model_name := config.MODEL_NAME settings; use_mock := false;
                    TORCH_AVAILABLE := true; forward := fwd |}
    | inl _ => {| model_name := config.MODEL_NAME settings; use_mock := true;
                  TORCH_AVAILABLE := true; forward := unloaded |}
    end
  else {| model_name := "mock-classifier"; use_mock := true;
          TORCH_AVAILABLE := false; forward := unloaded |}.

(** [TicketClassifier.classify] *)
Definition classify (self : TicketClassifier) (ticket_text : string)
  : Exc ClassificationResult :=
  if use_mock self || negb (TORCH_AVAILABLE self) then _classify_mock ticket_text
  else
    etry
      (probs <-? forward self ticket_text ;;
       top_idx <-? argmax probs ;;
       top_category <-? index CATEGORIES top_idx ;;
       confidence <-? index probs top_idx ;;
       category_scores <-? category_scores probs (seq 0 (length CATEGORIES)) [] ;;
       ok {| category := top_category;
             confidence := confidence;
             scores := category_scores;
             model := model_name self |})
      (fun _ => _classify_mock ticket_text).

(** [TicketClassifier.classify_batch] *)
Definition classify_batch (self : TicketClassifier) (ticket_texts : list string)
  : list (Exc ClassificationResult) :=
  map (classify self) ticket_texts.

End model_service.

(** ** [app/services/jira_service.py] *)

Module jira_service.
Import Py runtime.

Record JiraService : Type := {
  url : string;
  email : option string;
  api_token : option string;
  project_key : string;
  auth : option (string * string)
}.

(** [JiraService.__init__] *)
Definition JiraService_init (settings : config.Settings) : JiraService :=
  let email := config.JIRA_EMAIL settings in
  let api_token := config.JIRA_API_TOKEN settings in
  {| url := config.JIRA_URL settings;
     email := email;
     api_token := api_token;
     project_key := config.JIRA_PROJECT_KEY settings;
     auth := if truthy_opt email && truthy_opt api_token
             then Some (str_opt email, str_opt api_token)
             else None |}.

(** [JiraService._create_mock_issue] *)
Definition _create_mock_issue (self : JiraService)
    (summary description priority : string) : M (dict value) :=
  n <- randint 1000 9999 ;;
  let issue_key := project_key self ++ "-" ++ str_int n in
  m <- randint 10000 99999 ;;
  ret [ ("success", VBool true);
        ("issue_key", VStr issue_key);
        ("issue_id", VStr ("mock-" ++ str_int m));
        ("url", VStr (url self ++ "/browse/" ++ issue_key));
        ("mock", VBool true) ].

(** The Atlassian document wrapping a description. *)
Definition adf (description : string) : value :=
  VDict [ ("type", VStr "doc");
          ("version", VInt 1);
          ("content",
           VList [ VDict [ ("type", VStr "paragraph");
                           ("content",
                            VList [ VDict [ ("type", VStr "text");
                                            ("text", VStr description) ] ]) ] ]) ].

(** [JiraService.create_issue] *)
Definition create_issue (self : JiraService)
    (summary description issue_type priority : string)
    (labels : option (list string)) : M (dict value) :=
  match auth self with
  | None => _create_mock_issue self summary description priority
  | Some _ =>
      try_except
        (let url' := url self ++ "/rest/api/3/issue" in
         let fields :=
           [ ("project", VDict [("key", VStr (project_key self))]);
             ("summary", VStr summary);
             ("description", adf description);
             ("issuetype", VDict [("name", VStr issue_type)]);
             ("priority", VDict [("name", VStr priority)]) ] in
         let fields :=
           match labels with
           | Some (l :: ls) => dict_set "labels" (VList (map VStr (l :: ls))) fields
           | _ => fields
           end in
         let payload := VDict [("fields", VDict fields)] in
         response <- jira_post url' payload ;;
         if (status_code response =? 201)%Z then
           issue_data <- lift (json response) ;;
           ret [ ("success", VBool true);
                 ("issue_key", of_opt (key issue_data));
                 ("issue_id", of_opt (id issue_data));
                 ("url", VStr (url self ++ "/browse/" ++ str_opt (key issue_data))) ]
         else
           let error_msg :=
             "Failed to create Jira issue: " ++ str_int (status_code response)
             ++ " - " ++ text response in
           ret [ ("success", VBool false); ("error", VStr error_msg) ])
        (fun e => ret [ ("success", VBool false); ("error", VStr (exn_str e)) ])
  end.

(** [JiraService.update_issue]: a successful update answers 204. *)
Definition update_issue (self : JiraService) (issue_key : string)
    (summary description priority : option string) : M (dict value) :=
  match auth self with
  | None => ret [ ("success", VBool true); ("message", VStr "Mock update successful") ]
  | Some _ =>
      try_except
        (let url' := url self ++ "/rest/api/3/issue/" ++ issue_key in
         let fields : dict value := [] in
         let fields :=
           if truthy_opt summary then dict_set "summary" (VStr (str_opt summary)) fields
           else fields in
         let fields :=
           if truthy_opt description
           then dict_set "description" (adf (str_opt description)) fields
           else fields in
         let fields :=
           if truthy_opt priority
           then dict_set "priority" (VDict [("name", VStr (str_opt priority))]) fields
           else fields in
         match fields with
         | [] => ret [ ("success", VBool false); ("error", VStr "No fields to update") ]
         | _ =>
             let payload := VDict [("fields", VDict fields)] in
             response <- jira_post url' payload ;;
             if (status_code response =? 204)%Z then
               ret [ ("success", VBool true); ("issue_key", VStr issue_key) ]
             else
               let error_msg :=
                 "Failed to update Jira issue: " ++ str_int (status_code response)
                 ++ " - " ++ text response in
               ret [ ("success", VBool false); ("error", VStr error_msg) ]
         end)
        (fun e => ret [ ("success", VBool false); ("error", VStr (exn_str e)) ])
  end.

End jira_service.

(** ** [app/services/slack_service.py] *)

Module slack_service.
Import Py runtime.

Record SlackService : Type := {
  bot_token : option string;
  base_url : string;
  default_channel : string
}.

(** [SlackService.__init__] *)
Definition SlackService_init (settings : config.Settings) : SlackService :=
  {| bot_token := config.SLACK_BOT_TOKEN settings;
     base_url := "https://slack.com/api";
     default_channel := config.SLACK_CHANNEL_ID settings |}.

(** [SlackService._send_mock_message] *)
Definition _send_mock_message (self : SlackService) (text : string)
    (channel : option string) : dict value :=
  [ ("success", VBool true);
    ("channel", VStr (or_else channel (default_channel self)));
    ("ts", VStr "1234567890.123456");
    ("message", VDict [("text", VStr text)]);
    ("mock", VBool true) ].

(** [SlackService.send_message] *)
Definition send_message (self : SlackService) (text : string)
    (channel : option string) (blocks : option (list value))
    (thread_ts : option string) : M (dict value) :=
  if negb (truthy_opt (bot_token self)) then
    ret (_send_mock_message self text channel)
  else
    try_except
      (let url := base_url self ++ "/chat.postMessage" in
       let payload :=
         [ ("channel", VStr (or_else channel (default_channel self)));
           ("text", VStr text) ] in
       let payload :=
         match blocks with
         | Some (b :: bs) => dict_set "blocks" (VList (b :: bs)) payload
         | _ => payload
         end in
       let payload :=
         if truthy_opt thread_ts
         then dict_set "thread_ts" (VStr (str_opt thread_ts)) payload
         else payload in
       result <- slack_post url (VDict payload) ;;
       if truthy (get result "ok") then
         ret [ ("success", VBool true);
               ("channel", get result "channel");
               ("ts", get result "ts");
               ("message", get result "message") ]
       else
         let error_msg := dict_get_default "error" (VStr "Unknown error") result in
         ret [ ("success", VBool false); ("error", error_msg) ])
      (fun e => ret [ ("success", VBool false); ("error", VStr (exn_str e)) ]).

(** The [text] of a ticket notification. *)
Definition notification_text (category summary : string)
    (jira_key : option string) : string :=
  let text := "New " ++ category ++ " ticket: " ++ summary in
  if truthy_opt jira_key then text ++ " (Jira: " ++ str_opt jira_key ++ ")" else text.

Definition mrkdwn_section (text : string) : value :=
  VDict [ ("type", VStr "section");
          ("text", VDict [("type", VStr "mrkdwn"); ("text", VStr text)]) ].

(** The [blocks] of a ticket notification. *)
Definition notification_blocks (jira_url ticket_id category summary : string)
    (jira_key : option string) : list value :=
  let blocks :=
    [ VDict [ ("type", VStr "header");
              ("text", VDict [ ("type", VStr "plain_text");
                               ("text", VStr ("New " ++ title category ++ " Ticket")) ]) ];
      VDict [ ("type", VStr "section");
              ("fields",
               VList [ VDict [ ("type", VStr "mrkdwn");
                               ("text", VStr ("*Ticket ID:*" ++ nl ++ ticket_id)) ];
                       VDict [ ("type", VStr "mrkdwn");
                               ("text", VStr ("*Category:*" ++ nl ++ category)) ] ]) ];
      mrkdwn_section ("*Summary:*" ++ nl ++ summary) ] in
  if truthy_opt jira_key then
    (blocks ++ [ mrkdwn_section ("*Jira Issue:* <" ++ jira_url ++ "/browse/"
                                 ++ str_opt jira_key ++ "|" ++ str_opt jira_key ++ ">") ])%list
  else blocks.

(** [SlackService.send_ticket_notification] *)
Definition send_ticket_notification (settings : config.Settings) (self : SlackService)
    (ticket_id category summary : string) (jira_key channel : option string)
  : M (dict value) :=
  let routing := dict_get_default category [] config.CATEGORY_ROUTING in
  let target_channel :=
    or_else channel (dict_get_default "slack_channel" (default_channel self) routing) in
  let blocks :=
    notification_blocks (config.JIRA_URL settings) ticket_id category summary jira_key in
  let text := notification_text category summary jira_key in
  send_message self text (Some target_channel) (Some blocks) None.

End slack_service.

(** ** [app/services/watsonx_service.py] *)

Module watsonx_service.
Import Py runtime.

Record WatsonXService : Type := {
  api_key : option string;
  url : string;
  project_id : option string;
  model_id : string;
  available : bool
}.

(** [WatsonXService.__init__]: [sdk] is the outcome of importing the SDK
    and building the [Model]. *)
Definition WatsonXService_init (settings : config.Settings) (sdk : Exc unit)
  : WatsonXService :=
  let api_key := config.WATSONX_API_KEY settings in
  let project_id := config.WATSONX_PROJECT_ID settings in
  {| api_key := api_key;
     url := config.WATSONX_URL settings;
     project_id := project_id;
     model_id := config.WATSONX_MODEL_ID settings;
     available :=
       if truthy_opt api_key && truthy_opt project_id then
         match sdk with
         | inr _ => true
         | inl _ => false
         end
       else false |}.

Definition reply_text : string :=
  "Thank you for contacting us. We understand your concern and will look into this matter promptly. Our team will get back to you within 24 hours.".

Definition summary_text : string :=
  "Customer experiencing issue with service. Requires immediate attention from support team.".

Definition placeholder_text : string :=
  "This is a mock response. Please configure watsonx.ai credentials for actual AI-generated responses.".

(** [WatsonXService._generate_mock_response] *)
Definition _generate_mock_response (prompt : string) : dict value :=
  let mock_text :=
    if contains "suggest" (lower prompt) || contains "response" (lower prompt)
    then reply_text
    else if contains "summar" (lower prompt) then summary_text
    else placeholder_text in
  [ ("success", VBool true);
    ("text", VStr mock_text);
    ("model", VStr "mock");
    ("mock", VBool true) ].

(** [WatsonXService.generate_response] *)
Definition generate_response (self : WatsonXService) (prompt : string)
    (max_tokens : Z) : M (dict value) :=
  if negb (available self) then ret (_generate_mock_response prompt)
  else
    try_except
      (response <- model_generate prompt max_tokens ;;
       first <- lift (index (match results response with
                             | Some l => l
                             | None => [None]
                             end) 0) ;;
       let generated_text := match first with
                             | Some t => t
                             | None => VStr ""
                             end in
       ret [ ("success", VBool true);
             ("text", generated_text);
             ("model", VStr (model_id self)) ])
      (fun e =>
         text <- lift (getitem (_generate_mock_response prompt) "text") ;;
         ret [ ("success", VBool false);
               ("error", VStr (exn_str e));
               ("text", text) ]).

Definition suggest_prompt (ticket_text category : string) : string :=
  "You are a helpful support agent. Generate a professional and empathetic response to this "
  ++ category ++ " support ticket." ++ nl ++ nl
  ++ "Ticket:" ++ nl ++ ticket_text ++ nl ++ nl ++ "Response:".

Definition summarize_prompt (ticket_text : string) : string :=
  "Summarize this support ticket in 2-3 sentences, highlighting the key issue and urgency."
  ++ nl ++ nl ++ "Ticket:" ++ nl ++ ticket_text ++ nl ++ nl ++ "Summary:".

(** [WatsonXService.suggest_reply] *)
Definition suggest_reply (self : WatsonXService) (ticket_text category : string)
  : M (dict value) :=
  generate_response self (suggest_prompt ticket_text category) 300.

(** [WatsonXService.summarize_ticket] *)
Definition summarize_ticket (self : WatsonXService) (ticket_text : string)
  : M (dict value) :=
  generate_response self (summarize_prompt ticket_text) 150.

End watsonx_service.

(** ** The application: settings and the four service singletons *)

Module app.

Record App : Type := {
  settings : config.Settings;
  classifier : model_service.TicketClassifier;
  jira : jira_service.JiraService;
  slack : slack_service.SlackService;
  watsonx : watsonx_service.WatsonXService
}.

(** What [get_classifier], [get_jira_service], [get_slack_service] and
    [get_watsonx_service] build on first use. *)
Definition build (s : config.Settings) (torch_available : bool)
    (loaded : Py.Exc (string -> Py.Exc (list float))) (sdk : Py.Exc unit) : App :=
  {| settings := s;
     classifier := model_service.TicketClassifier_init s torch_available loaded;
     jira := jira_service.JiraService_init s;
     slack := slack_service.SlackService_init s;
     watsonx := watsonx_service.WatsonXService_init s sdk |}.

(** Mock mode: no collaborator is configured. *)
Definition mock_mode (a : App) : bool :=
  model_service.use_mock (classifier a)
  && match jira_service.auth (jira a) with Some _ => false | None => true end
  && negb (Py.truthy_opt (slack_service.bot_token (slack a)))
  && negb (watsonx_service.available (watsonx a)).

Definition HTTPException (status : Z) (detail : string) : Py.exn :=
  Py.Exception "HTTPException" (Py.str_int status ++ ": " ++ detail).

End app.

(** ** [app/routes/classify.py] *)

Module classify_routes.
Import Py runtime app.

Record TicketRequest : Type := {
  text : string;
  include_suggestion : bool;
  include_summary : bool
}.

Record ClassificationResponse : Type := {
  category : string;
  confidence : float;
  scores : dict float;
  model : string;
  suggestion : option string;
  summary : option string
}.

(** Validation of an [Optional[str]] field: absent and [None] give [None],
    a string is kept, a list or a dict is refused.  Numbers and booleans
    are taken as refused too; the properties below speak of absent values,
    nulls, strings, lists and dicts only. *)
Definition optional_str (field : string) (v : option value) : Exc (option string) :=
  match v with
  | None => ok None
  | Some VNone => ok None
  | Some (VStr s) => ok (Some s)
  | Some _ => throw (ValidationError field)
  end.

(** [classify_ticket] *)
Definition classify_ticket (a : App) (request : TicketRequest)
  : M ClassificationResponse :=
  try_except
    (classification <- lift (model_service.classify (classifier a) (text request)) ;;
     suggestion <-
       (if include_suggestion request then
          suggestion_result <-
            watsonx_service.suggest_reply (watsonx a) (text request)
              (model_service.category classification) ;;
          ret (Some (dict_get_default "text" (VStr "") suggestion_result))
        else ret None) ;;
     summary <-
       (if include_summary request then
          summary_result <-
            watsonx_service.summarize_ticket (watsonx a) (text request) ;;
          ret (Some (dict_get_default "text" (VStr "") summary_result))
        else ret None) ;;
     suggestion <- lift (optional_str "suggestion" suggestion) ;;
     summary <- lift (optional_str "summary" summary) ;;
     ret {| category := model_service.category classification;
            confidence := model_service.confidence classification;
            scores := model_service.scores classification;
            model := model_service.model classification;
            suggestion := suggestion;
            summary := summary |})
    (fun e => raise (HTTPException 500 ("Classification error: " ++ exn_str e))).

End classify_routes.

(** ** [app/routes/route.py] *)

Module route_routes.
Import Py runtime app.

Module RouteRequest.
Record t : Type := {
  ticket_id : string;
  text : string;
  subject : option string;
  from_email : option string;
  create_jira : bool;
  send_slack : bool
}.
End RouteRequest.

Module RouteResponse.
Record t : Type := {
  ticket_id : string;
  category : string;
  confidence : float;
  jira_issue : option (dict value);
  slack_message : option (dict value);
  routing_config : dict string
}.

(** [result.dict()] *)
Definition dict (r : t) : Py.dict value :=
  let opt_dict (o : option (Py.dict value)) :=
    match o with
    | Some d => VDict d
    | None => VNone
    end in
  [ ("ticket_id", VStr (ticket_id r));
    ("category", VStr (category r));
    ("confidence", VFloat (confidence r));
    ("jira_issue", opt_dict (jira_issue r));
    ("slack_message", opt_dict (slack_message r));
    ("routing_config", VDict (map (fun kv => (fst kv, VStr (snd kv))) (routing_config r))) ].
End RouteResponse.

(** The routing configuration of a category:
    [settings.CATEGORY_ROUTING.get(category, {...default...})]. *)
Definition routing_config_for (s : config.Settings) (category : string) : dict string :=
  dict_get_default category
    [ ("jira_priority", "Medium"); ("slack_channel", config.SLACK_CHANNEL_ID s) ]
    config.CATEGORY_ROUTING.

(** The summary and the description of the Jira issue of a request. *)
Definition jira_summary (request : RouteRequest.t) (category : string) : string :=
  or_else (RouteRequest.subject request)
          (title category ++ " Ticket: " ++ RouteRequest.ticket_id request).

Definition jira_description (request : RouteRequest.t) : string :=
  let description :=
    "Ticket ID: " ++ RouteRequest.ticket_id request ++ nl ++ nl
    ++ RouteRequest.text request in
  if truthy_opt (RouteRequest.from_email request)
  then description ++ nl ++ nl ++ "From: " ++ str_opt (RouteRequest.from_email request)
  else description.

(** The summary of the Slack notification of a request. *)
Definition slack_summary (request : RouteRequest.t) : string :=
  or_else (RouteRequest.subject request)
          ("Ticket " ++ RouteRequest.ticket_id request).

(** [jira_issue.get("issue_key") if jira_issue and jira_issue.get("success")
     else None] *)
Definition jira_key_of (jira_issue : option (dict value)) : option string :=
  match jira_issue with
  | Some issue =>
      if truthy (VDict issue) && truthy (get issue "success")
      then as_opt_str (get issue "issue_key")
      else None
  | None => None
  end.

(** [route_ticket] *)
Definition route_ticket (a : App) (request : RouteRequest.t) : M RouteResponse.t :=
  try_except
    (classification <-
       lift (model_service.classify (classifier a) (RouteRequest.text request)) ;;
     let category := model_service.category classification in
     let confidence := model_service.confidence classification in
     let routing_config := routing_config_for (settings a) category in
     jira_issue <-
       (if RouteRequest.create_jira request then
          issue <-
            jira_service.create_issue (jira a)
              (jira_summary request category)
              (jira_description request)
              "Task"
              (dict_get_default "jira_priority" "Medium" routing_config)
              (Some [category; "ai-triaged"]) ;;
          ret (Some issue)
        else ret None) ;;
     slack_message <-
       (if RouteRequest.send_slack request then
          message <-
            slack_service.send_ticket_notification (settings a) (slack a)
              (RouteRequest.ticket_id request) category
              (slack_summary request) (jira_key_of jira_issue) None ;;
          ret (Some message)
        else ret None) ;;
     ret {| RouteResponse.ticket_id := RouteRequest.ticket_id request;
            RouteResponse.category := category;
            RouteResponse.confidence := confidence;
            RouteResponse.jira_issue := jira_issue;
            RouteResponse.slack_message := slack_message;
            RouteResponse.routing_config := routing_config |})
    (fun e => raise (HTTPException 500 ("Routing error: " ++ exn_str e))).

(** The loop of [route_tickets_batch]: [results] grows by one entry per
    ticket, in order. *)
Fixpoint route_each (a : App) (tickets : list RouteRequest.t)
    (results : list (dict value)) : M (list (dict value)) :=
  match tickets with
  | [] => ret results
  | ticket :: tickets' =>
      result <- route_ticket a ticket ;;
      route_each a tickets' (results ++ [RouteResponse.dict result])%list
  end.

(** [route_tickets_batch] *)
Definition route_tickets_batch (a : App) (tickets : list RouteRequest.t)
  : M (dict value) :=
  try_except
    (results <- route_each a tickets [] ;;
     ret [ ("processed", VInt (Z.of_nat (length results)));
           ("results", VList (map VDict results)) ])
    (fun e => raise (HTTPException 500 ("Batch routing error: " ++ exn_str e))).

End route_routes.

(** ** [app/main.py] *)

Module main.
Import Py.

(** [health_check]: [got] is the outcome of [get_classifier()]. *)
Definition health_check (got : Exc model_service.TicketClassifier) : dict value :=
  match got with
  | inr classifier =>
      [ ("status", VStr "healthy");
        ("services",
         VDict [ ("classifier", VStr "available");
                 ("model", VStr (model_service.model_name classifier)) ]) ]
  | inl e => [ ("status", VStr "degraded"); ("error", VStr (exn_str e)) ]
  end.

End main.

(** * Definitions for the statements *)

(** ** Keyword mode, in the specification's words

    For each category, add the weight 0.3 for every keyword of the
    category's list found in the lower-cased text; clip at 1.0; if the
    clipped scores sum to zero, the catch-all category gets 1.0 and the
    others 0, otherwise every score is divided by the sum.  The category is
    the first one, in the order of [CATEGORIES], whose score is maximal. *)

Module keyword_mode.
Import Py model_service.
Open Scope float_scope.

(** The keywords of [category] found in the lower-cased [text]. *)
Definition found (text category : string) : list string :=
  filter (fun keyword => contains keyword (lower text))
         (dict_get_default category [] keywords).

(** The raw score: 0.3 added once per keyword found. *)
Definition raw (text category : string) : float :=
  Nat.iter (length (found text category)) (fun s => s + 0.3) 0.

Definition clip (x : float) : float := if 1 <? x then 1 else x.

Section Scores.
Variable raw_score : string -> float.

Definition total : float := sum (map (fun c => clip (raw_score c)) CATEGORIES).

Definition score (category : string) : float :=
  if total =? 0 then (if String.eqb category "general" then 1 else 0)
  else clip (raw_score category) / total.

End Scores.

(** [c] is the first category of [CATEGORIES] with a maximal score. *)
Definition first_max (score : string -> float) (c : string) : Prop :=
  exists i, nth_error CATEGORIES i = Some c /\
    forall j c', nth_error CATEGORIES j = Some c' ->
      (score c' <=? score c) = true /\
      ((j < i)%nat -> (score c' <? score c) = true).

End keyword_mode.

(** ** Keyword counts *)

Module counts.
Import Py model_service.
Open Scope float_scope.

(** The score after [n] keywords were found. *)
Definition weight (n : nat) : float := Nat.iter n (fun s => s + 0.3) 0.

(** How many keywords of [category] occur in [text_lower]. *)
Definition hits (text_lower category : string) : nat :=
  length (filter (fun keyword => contains keyword text_lower)
                 (dict_get_default category [] keywords)).

(** [_classify_mock] from the six raw scores on. *)
Definition scored (b t a g r f : float) : Exc ClassificationResult :=
  let scores :=
    [ ("billing", min b 1); ("technical", min t 1); ("access", min a 1);
      ("general", min g 1); ("bug_report", min r 1); ("feature_request", min f 1) ] in
  let total := sum (values scores) in
  scores <-? (if 0 <? total
              then normalize scores total []
              else ok (dict_set "general" 1 scores)) ;;
  top <-? max_by_value scores ;;
  confidence <-? getitem scores (fst top) ;;
  ok {| category := fst top;
        confidence := confidence;
        scores := scores;
        model := "mock-classifier" |}.

(** The raw scores of the six categories, in the order of [CATEGORIES],
    given the five keyword counts ([general] has no keyword). *)
Definition raws_of_counts (b t a r f : nat) : list float :=
  [weight b; weight t; weight a; weight 0; weight r; weight f].

(** A check on the result of the classifier, run on given counts; it is
    given the raw scores too. *)
Definition holds_at (P : list float -> ClassificationResult -> bool)
    (b t a r f : nat) : bool :=
  match scored (weight b) (weight t) (weight a) (weight 0) (weight r) (weight f) with
  | inr res => P (raws_of_counts b t a r f) res
  | inl _ => false
  end.

(** The check on every vector of counts the keyword table allows:
    8, 8, 7, 5 and 6 keywords. *)
Definition holds_everywhere
    (P : list float -> ClassificationResult -> bool) : bool :=
  forallb (fun b =>
  forallb (fun t =>
  forallb (fun a =>
  forallb (fun r =>
  forallb (fun f => holds_at P b t a r f)
    (seq 0 7)) (seq 0 6)) (seq 0 8)) (seq 0 9)) (seq 0 9).

End counts.

(** ** Decidable forms of the checks *)

Module checks.
Import Py model_service keyword_mode.
Open Scope float_scope.

Definition float_eqb (x y : float) : bool := Leibniz.eqb x y.

Fixpoint scores_eqb (a b : dict float) : bool :=
  match a, b with
  | [], [] => true
  | (k, x) :: a', (k', y) :: b' => String.eqb k k' && float_eqb x y && scores_eqb a' b'
  | _, _ => false
  end.

(** The specification's scores of the six categories, from their raw
    scores: the sum of the clipped scores is computed once. *)
Definition spec_scores (raws : list float) : list float :=
  let t := sum (map clip raws) in
  map (fun cx : string * float =>
         if t =? 0 then (if String.eqb (fst cx) "general" then 1 else 0)
         else clip (snd cx) / t)
      (combine CATEGORIES raws).

(** The [i]-th of the scores [ss] is the first maximum. *)
Definition first_max_at (ss : list float) (i : nat) : bool :=
  forallb
    (fun j =>
       (nth j ss 0 <=? nth i ss 0)
       && (if (j <? i)%nat then nth j ss 0 <? nth i ss 0 else true))
    (seq 0 (length CATEGORIES)).

(** The result is the one the specification's words describe. *)
Definition as_specified (raws : list float) (res : ClassificationResult) : bool :=
  let ss := spec_scores raws in
  scores_eqb (scores res) (combine CATEGORIES ss)
  && existsb
       (fun i =>
          String.eqb (nth i CATEGORIES "") (category res)
          && first_max_at ss i
          && float_eqb (confidence res) (nth i ss 0))
       (seq 0 (length CATEGORIES)).

(** The values of a score mapping are in [0, 1] and sum to 1 within 1e-6. *)
Definition in_unit (x : float) : bool := (0 <=? x) && (x <=? 1).

Definition sums_to_one (xs : list float) : bool := abs (sum xs - 1) <=? 1e-6.

Fixpoint list_eqb (a b : list string) : bool :=
  match a, b with
  | [], [] => true
  | x :: a', y :: b' => String.eqb x y && list_eqb a' b'
  | _, _ => false
  end.

Definition well_formed (res : ClassificationResult) : bool :=
  existsb (String.eqb (category res)) CATEGORIES
  && list_eqb (keys (scores res)) CATEGORIES
  && forallb in_unit (values (scores res))
  && sums_to_one (values (scores res)).

End checks.

(** ** Example deployments and worlds *)

Module examples.
Import Py runtime app route_routes.

(** A world with the given draws and generation outcomes, and no answer
    scripted for Jira or Slack. *)
Definition world (draws : list Z) (generation : list (Exc GenerateResponse)) : World :=
  {| entropy := draws; jira_api := []; slack_api := [];
     watsonx_api := generation; outbox := [] |}.

Definition ImportError (module : string) : exn :=
  Exception "ImportError" ("No module named " ++ module).

(** The application started with an empty environment and neither PyTorch
    nor the generation SDK installed. *)
Definition unconfigured : app.App :=
  app.build config.default_settings false
    (inl (ImportError "torch")) (inl (ImportError "ibm_watson_machine_learning")).

(** The default settings with generation credentials. *)
Definition generation_settings : config.Settings :=
  {| config.JIRA_URL := "https://your-domain.atlassian.net";
     config.JIRA_EMAIL := None;
     config.JIRA_API_TOKEN := None;
     config.JIRA_PROJECT_KEY := "SUP";
     config.SLACK_BOT_TOKEN := None;
     config.SLACK_CHANNEL_ID := "#support-tickets";
     config.WATSONX_API_KEY := Some "api-key";
     config.WATSONX_URL := "https://us-south.ml.cloud.ibm.com";
     config.WATSONX_PROJECT_ID := Some "project";
     config.WATSONX_MODEL_ID := "meta-llama/llama-3-8b-instruct";
     config.MODEL_NAME := "bert-base-uncased";
     config.MODEL_CACHE_DIR := "./models" |}.

(** A generation service whose SDK and credentials are in place. *)
Definition generation_service : watsonx_service.WatsonXService :=
  watsonx_service.WatsonXService_init generation_settings (inr tt).

(** Two calls in a row. *)
Definition twice {A} (c : M A) : M (A * A) :=
  x <- c ;; y <- c ;; ret (x, y).


Definition has_str (k : string) (d : dict value) : Prop :=
  exists s, dict_get k d = Some (VStr s).

(** A model-mode classifier whose model answers a fixed row. *)
Definition fixed_row_classifier : model_service.TicketClassifier :=
  model_service.TicketClassifier_init config.default_settings true
    (inr (fun _ => inr [0.5; 0.25; 0.25; 0; 0; 0]%float)).

(** Three tickets and the batch run on them in an unconfigured deployment. *)
Definition batch_tickets : list RouteRequest.t :=
  [ {| RouteRequest.ticket_id := "T-1"; RouteRequest.text := "I was charged twice";
       RouteRequest.subject := Some "Double charge"; RouteRequest.from_email := None;
       RouteRequest.create_jira := true; RouteRequest.send_slack := true |};
    {| RouteRequest.ticket_id := "T-2"; RouteRequest.text := "Cannot login";
       RouteRequest.subject := None; RouteRequest.from_email := Some "a@example.com";
       RouteRequest.create_jira := true; RouteRequest.send_slack := false |};
    {| RouteRequest.ticket_id := "T-3"; RouteRequest.text := "Hello";
       RouteRequest.subject := None; RouteRequest.from_email := None;
       RouteRequest.create_jira := false; RouteRequest.send_slack := true |} ].

Definition batch_world : World := world [11; 22; 33; 44]%Z [].

Definition batch_run : Exc (dict value) * World :=
  route_tickets_batch unconfigured batch_tickets batch_world.

Definition batch_response : dict value :=
  match fst batch_run with
  | inr response => response
  | inl _ => []
  end.

(** A ticket whose subject is given and empty, routed with both steps. *)
Definition empty_subject_ticket : RouteRequest.t :=
  {| RouteRequest.ticket_id := "T-1";
     RouteRequest.text := "The app shows an error";
     RouteRequest.subject := Some "";
     RouteRequest.from_email := None;
     RouteRequest.create_jira := true;
     RouteRequest.send_slack := true |}.


End examples.

(** ** Predicates of the statements *)

Section ClassifierPredicates.
Import Py model_service checks.
Open Scope float_scope.

(** What the softmax row of the model is expected to be: one probability
    per category, each in [0, 1], summing to 1 within 1e-6. *)
Definition distribution (probs : list float) : bool :=
  (length probs =? length CATEGORIES)%nat
  && forallb in_unit probs
  && sums_to_one probs.

(** The well-formedness of a result, as a proposition. *)
Definition WellFormed (res : ClassificationResult) : Prop :=
  In (category res) CATEGORIES /\
  keys (scores res) = CATEGORIES /\
  (forall v, In v (values (scores res)) -> (0 <=? v) = true /\ (v <=? 1) = true) /\
  (abs (sum (values (scores res)) - 1) <=? 1e-6) = true.

End ClassifierPredicates.

Section HandlerPredicates.
Import Py runtime app route_routes.

(** In every world, [c] returns without raising a value satisfying [P]. *)
Definition returns {A} (c : M A) (P : A -> Prop) : Prop :=
  forall w, exists a w', c w = (inr a, w') /\ P a.

(** A text: a string or a null. *)
Definition is_text (v : value) : Prop := v = VNone \/ exists s, v = VStr s.

(** A value read from a generation result that passes the validation of
    the response: absent, or a text. *)
Definition opt_text (o : option value) : Prop :=
  match o with
  | None => True
  | Some v => is_text v
  end.

(** The generated text of an answer of the backend, if it has one, is a
    text. *)
Definition answer_texts (r : Exc GenerateResponse) : Prop :=
  match r with
  | inr response =>
      match results response with
      | Some (Some v :: _) => is_text v
      | _ => True
      end
  | inl _ => True
  end.

(** Every answer the generation backend is going to give is of that kind
    (it may as well raise, or give no result). *)
Definition texts_only (w : World) : Prop := Forall answer_texts (watsonx_api w).

(** From every world satisfying [I], [c] returns without raising a value
    satisfying [P], in a world satisfying [I]. *)
Definition returns_in {A} (I : World -> Prop) (c : M A) (P : A -> Prop) : Prop :=
  forall w, I w -> exists a w', c w = (inr a, w') /\ P a /\ I w'.

(** The text of a generation result is a text. *)
Definition has_text (d : dict value) : Prop :=
  exists v, dict_get "text" d = Some v /\ is_text v.

(** [routed a w tickets results w']: routing the tickets one after the
    other from the world [w] gives the responses [results], the i-th for the
    i-th ticket, and leaves the world [w']. *)
Inductive routed (a : App)
  : World -> list RouteRequest.t -> list RouteResponse.t -> World -> Prop :=
| routed_nil w : routed a w [] [] w
| routed_cons w ticket tickets result w1 results w2 :
    route_ticket a ticket w = (inr result, w1) ->
    routed a w1 tickets results w2 ->
    routed a w (ticket :: tickets) (result :: results) w2.




End HandlerPredicates.

(** ** Checks on keyword counts *)

Module count_checks.
Import Py model_service counts.
Open Scope float_scope.

(** A check on the result of the classifier that reads the keyword counts
    of the five categories with keywords. *)
Definition holds_at_counts
    (P : nat -> nat -> nat -> nat -> nat -> ClassificationResult -> bool)
    (b t a r f : nat) : bool :=
  match scored (weight b) (weight t) (weight a) (weight 0) (weight r) (weight f) with
  | inr res => P b t a r f res
  | inl _ => false
  end.

Definition holds_for_counts
    (P : nat -> nat -> nat -> nat -> nat -> ClassificationResult -> bool) : bool :=
  forallb (fun b =>
  forallb (fun t =>
  forallb (fun a =>
  forallb (fun r =>
  forallb (fun f => holds_at_counts P b t a r f)
    (seq 0 7)) (seq 0 6)) (seq 0 8)) (seq 0 9)) (seq 0 9).

(** [general] is the category exactly when no keyword was found, and then
    the confidence is 1. *)
Definition general_check (b t a r f : nat) (res : ClassificationResult) : bool :=
  if String.eqb (category res) "general"
  then (b + t + a + r + f =? 0)%nat && checks.float_eqb (confidence res) 1
  else negb (b + t + a + r + f =? 0)%nat.

(** [bug_report] is not the category when [technical] has as many hits. *)
Definition bug_report_check (b t a r f : nat) (res : ClassificationResult) : bool :=
  if (r <=? t)%nat then negb (String.eqb (category res) "bug_report") else true.

(** The least confidence: five categories tied, one rounding below 1/5. *)
Definition least_confidence : float := 0.3 / (0.3 + 0.3 + 0.3 + 0 + 0.3 + 0.3).

Definition floor_check (b t a r f : nat) (res : ClassificationResult) : bool :=
  least_confidence <=? confidence res.

End count_checks.

(** ** More example deployments *)

Module scenarios.
Import Py runtime app route_routes examples.

(** The default settings with Jira credentials. *)
Definition jira_settings : config.Settings :=
  {| config.JIRA_URL := "https://your-domain.atlassian.net";
     config.JIRA_EMAIL := Some "agent@example.com";
     config.JIRA_API_TOKEN := Some "token";
     config.JIRA_PROJECT_KEY := "SUP";
     config.SLACK_BOT_TOKEN := None;
     config.SLACK_CHANNEL_ID := "#support-tickets";
     config.WATSONX_API_KEY := None;
     config.WATSONX_URL := "https://us-south.ml.cloud.ibm.com";
     config.WATSONX_PROJECT_ID := None;
     config.WATSONX_MODEL_ID := "meta-llama/llama-3-8b-instruct";
     config.MODEL_NAME := "bert-base-uncased";
     config.MODEL_CACHE_DIR := "./models" |}.

Definition jira_configured : jira_service.JiraService :=
  jira_service.JiraService_init jira_settings.

(** A loaded model whose inference answers a row of two entries. *)
Definition short_row_classifier : model_service.TicketClassifier :=
  model_service.TicketClassifier_init config.default_settings true
    (inr (fun _ => inr [0.5; 0.5]%float)).

(** A world whose generation backend answers without any result. *)
Definition empty_results_world : World :=
  world [] [inr {| results := Some [] |}].




End scenarios.

(** ** Predicates of the further statements *)

Section FurtherPredicates.
Import Py runtime examples.

(** No remote interaction: nothing is sent and no scripted answer is
    consumed. *)
Definition untouched (w w' : World) : Prop :=
  outbox w' = outbox w /\ jira_api w' = jira_api w /\
  slack_api w' = slack_api w /\ watsonx_api w' = watsonx_api w.

Definition quiet {A} (c : M A) : Prop := forall w, untouched w (snd (c w)).

(** The shape of a result of issue creation. *)
Definition issue_result (d : dict value) : Prop :=
  (dict_get "success" d = Some (VBool true) /\
   dict_mem "issue_key" d = true /\ dict_mem "issue_id" d = true /\ has_str "url" d)
  \/ (dict_get "success" d = Some (VBool false) /\ has_str "error" d).

(** The shape of a result of sending a message. *)
Definition message_result (d : dict value) : Prop :=
  (dict_get "success" d = Some (VBool true) /\
   dict_mem "channel" d = true /\ dict_mem "ts" d = true /\ dict_mem "message" d = true)
  \/ (dict_get "success" d = Some (VBool false) /\ dict_mem "error" d = true).

(** No keyword of the table occurs in the lower-cased text. *)
Definition no_keyword (text : string) : Prop :=
  forall category kws kw,
    dict_get category model_service.keywords = Some kws -> In kw kws ->
    contains kw (lower text) = false.

End FurtherPredicates.

(** * Properties *)

(** ** Substrings *)

Section Substrings.
Import Py.

Lemma prefix_app (k q : string) : prefix k (k ++ q) = true.
Proof.
  induction k as [|c k IH]; simpl.
  - destruct q; reflexivity.
  - destruct (ascii_dec c c) as [_|N]; [exact IH | now elim N].
Qed.

Lemma prefix_split (k h : string) :
  prefix k h = true -> exists q, h = k ++ q.
Proof.
  revert h; induction k as [|c k IH]; intros h H.
  - exists h. reflexivity.
  - destruct h as [|d h]; simpl in H; [discriminate|].
    destruct (ascii_dec c d) as [->|]; [|discriminate].
    destruct (IH h H) as [q ->]. exists q. reflexivity.
Qed.

Lemma append_assoc (a b c : string) : (a ++ b) ++ c = a ++ (b ++ c).
Proof. induction a as [|x a IH]; simpl; [reflexivity | now rewrite IH]. Qed.

(** [contains] is the substring relation. *)
Lemma contains_spec (k h : string) :
  contains k h = true <-> exists p q, h = p ++ k ++ q.
Proof.
  split.
  - induction h as [|c h IH]; cbn [contains]; intros H.
    + rewrite orb_false_r in H. destruct (prefix_split k "" H) as [q E].
      exists "", q. exact E.
    + apply orb_true_iff in H. destruct H as [H|H].
      * destruct (prefix_split k (String c h) H) as [q ->]. exists "", q. reflexivity.
      * destruct (IH H) as (p & q & ->). exists (String c p), q. reflexivity.
  - intros (p & q & ->). induction p as [|c p IH].
    + change ("" ++ k ++ q) with (k ++ q).
      destruct (k ++ q) eqn:E; cbn [contains]; rewrite <- E, prefix_app; reflexivity.
    + change (String c p ++ k ++ q) with (String c (p ++ k ++ q)).
      cbn [contains]. rewrite IH. apply orb_true_r.
Qed.

(** A substring of a part is a substring of the whole. *)
Lemma contains_middle (k a t b : string) :
  contains k t = true -> contains k (a ++ t ++ b) = true.
Proof.
  intros H. apply contains_spec in H. destruct H as (p & q & ->).
  apply contains_spec. exists (a ++ p), (q ++ b).
  now rewrite !append_assoc.
Qed.

Lemma lower_app (a b : string) : lower (a ++ b) = lower a ++ lower b.
Proof. induction a as [|c a IH]; simpl; [reflexivity | now rewrite IH]. Qed.

End Substrings.

(** ** Reduction of the keyword classifier to keyword counts *)

Section CountsFacts.
Import Py model_service counts.
Open Scope float_scope.

Lemma fold_score_iter (text_lower : string) (kws : list string) (s : float) :
  fold_left (fun score keyword =>
               if contains keyword text_lower then score + 0.3 else score) kws s
  = Nat.iter (length (filter (fun keyword => contains keyword text_lower) kws))
             (fun s => s + 0.3) s.
Proof.
  revert s; induction kws as [|kw kws IH]; intros s; simpl; [reflexivity|].
  destruct (contains kw text_lower); rewrite IH; [|reflexivity].
  simpl length. now rewrite Nat.iter_succ_r.
Qed.

Lemma keyword_score_hits (text_lower category : string) :
  keyword_score text_lower category = weight (hits text_lower category).
Proof.
  unfold keyword_score, weight, hits, dict_get_default.
  destruct (dict_get category keywords); [apply fold_score_iter | reflexivity].
Qed.

Lemma _classify_mock_scored (text : string) :
  _classify_mock text
  = scored (keyword_score (lower text) "billing")
           (keyword_score (lower text) "technical")
           (keyword_score (lower text) "access")
           (keyword_score (lower text) "general")
           (keyword_score (lower text) "bug_report")
           (keyword_score (lower text) "feature_request").
Proof. reflexivity. Qed.

Lemma hits_le (text_lower category : string) :
  (hits text_lower category <= length (dict_get_default category [] keywords))%nat.
Proof. apply filter_length_le. Qed.

Lemma forallb_seq (P : nat -> bool) (n : nat) :
  forallb P (seq 0 n) = true -> forall k, (k < n)%nat -> P k = true.
Proof.
  intros H k Hk. rewrite forallb_forall in H. apply H, in_seq. lia.
Qed.

(** A check that holds on every vector of counts holds for every text. *)
Lemma exhaustive (P : list float -> ClassificationResult -> bool) :
  holds_everywhere P = true ->
  forall text, exists res,
    _classify_mock text = inr res /\
    P (raws_of_counts (hits (lower text) "billing") (hits (lower text) "technical")
                      (hits (lower text) "access") (hits (lower text) "bug_report")
                      (hits (lower text) "feature_request")) res = true.
Proof.
  intros H text. set (tl := lower text).
  pose proof (hits_le tl "billing") as Hb.
  pose proof (hits_le tl "technical") as Ht.
  pose proof (hits_le tl "access") as Ha.
  pose proof (hits_le tl "bug_report") as Hr.
  pose proof (hits_le tl "feature_request") as Hf.
  change (length (dict_get_default "billing" [] keywords)) with 8%nat in Hb.
  change (length (dict_get_default "technical" [] keywords)) with 8%nat in Ht.
  change (length (dict_get_default "access" [] keywords)) with 7%nat in Ha.
  change (length (dict_get_default "bug_report" [] keywords)) with 5%nat in Hr.
  change (length (dict_get_default "feature_request" [] keywords)) with 6%nat in Hf.
  unfold holds_everywhere in H.
  apply forallb_seq with (k := hits tl "billing") in H; [|lia].
  apply forallb_seq with (k := hits tl "technical") in H; [|lia].
  apply forallb_seq with (k := hits tl "access") in H; [|lia].
  apply forallb_seq with (k := hits tl "bug_report") in H; [|lia].
  apply forallb_seq with (k := hits tl "feature_request") in H; [|lia].
  unfold holds_at in H.
  rewrite _classify_mock_scored, !keyword_score_hits. fold tl.
  change (hits tl "general") with 0%nat.
  destruct (scored _ _ _ _ _ _) as [e|res]; [discriminate|].
  exists res. split; [reflexivity | exact H].
Qed.

End CountsFacts.

(** ** Soundness of the decidable checks *)

Section ChecksFacts.
Import Py model_service keyword_mode checks.
Open Scope float_scope.

Lemma float_eqb_eq (x y : float) : float_eqb x y = true -> x = y.
Proof. apply Leibniz.eqb_spec. Qed.

Lemma scores_eqb_eq (a b : dict float) : scores_eqb a b = true -> a = b.
Proof.
  revert b; induction a as [|[k x] a IH]; intros [|[k' y] b] H; simpl in H;
    try discriminate; [reflexivity|].
  apply andb_true_iff in H. destruct H as [H Hab].
  apply andb_true_iff in H. destruct H as [Hk Hx].
  apply String.eqb_eq in Hk. apply float_eqb_eq in Hx.
  now rewrite Hk, Hx, (IH b Hab).
Qed.

Lemma list_eqb_eq (a b : list string) : list_eqb a b = true -> a = b.
Proof.
  revert b; induction a as [|x a IH]; intros [|y b] H; simpl in H;
    try discriminate; [reflexivity|].
  apply andb_true_iff in H. destruct H as [Hx Hab].
  apply String.eqb_eq in Hx. now rewrite Hx, (IH b Hab).
Qed.

(** The scores computed from the list of raw scores are the
    specification's scores of the categories. *)
Lemma spec_scores_score (raw_score : string -> float) :
  spec_scores (map raw_score CATEGORIES) = map (score raw_score) CATEGORIES.
Proof. reflexivity. Qed.

(** The raw scores of a text are those of its keyword counts. *)
Lemma raws_of_text (text : string) :
  counts.raws_of_counts
    (counts.hits (lower text) "billing") (counts.hits (lower text) "technical")
    (counts.hits (lower text) "access") (counts.hits (lower text) "bug_report")
    (counts.hits (lower text) "feature_request")
  = map (raw text) CATEGORIES.
Proof. reflexivity. Qed.

Lemma first_max_at_sound (sc : string -> float) (i : nat) (c : string) :
  nth i CATEGORIES "" = c -> (i < length CATEGORIES)%nat ->
  first_max_at (map sc CATEGORIES) i = true -> first_max sc c.
Proof.
  intros Hc Hi Hmax. exists i. split.
  - rewrite <- Hc. now apply nth_error_nth'.
  - intros j c' Hj. unfold first_max_at in Hmax. rewrite forallb_forall in Hmax.
    assert (Hlt : (j < length CATEGORIES)%nat)
      by (apply nth_error_Some; rewrite Hj; discriminate).
    assert (Hin : In j (seq 0 (length CATEGORIES))) by (apply in_seq; lia).
    apply Hmax in Hin.
    assert (Hnth : forall k, (k < length CATEGORIES)%nat ->
                     nth k (map sc CATEGORIES) 0 = sc (nth k CATEGORIES "")).
    { intros k Hk. rewrite (nth_indep _ 0 (sc "")) by (now rewrite length_map).
      apply map_nth. }
    rewrite !Hnth, (nth_error_nth _ _ "" Hj), Hc in Hin by assumption.
    apply andb_true_iff in Hin. destruct Hin as [Hle Hstrict]. split; [exact Hle|].
    intros Hji. apply Nat.ltb_lt in Hji. now rewrite Hji in Hstrict.
Qed.

End ChecksFacts.

(** ** The keyword classifier: claims C1, C2 and C7 *)

Section Classifier.
Import Py model_service keyword_mode checks.
Open Scope float_scope.

Lemma as_specified_everywhere : counts.holds_everywhere as_specified = true.
Proof. vm_compute. reflexivity. Qed.

Lemma well_formed_everywhere :
  counts.holds_everywhere (fun _ => well_formed) = true.
Proof. vm_compute. reflexivity. Qed.

(** C1.  For every text, keyword-mode classification returns a result whose
    scores are, category by category in the order of [CATEGORIES], the
    scores the specification describes (0.3 per keyword found in the
    lower-cased text, clipped at 1.0, divided by their sum unless it is
    zero); the category is the first one of [CATEGORIES] with a maximal
    score and the confidence is that category's score. *)
Theorem C1_keyword_mode_scores (text : string) :
  exists res,
    _classify_mock text = inr res /\
    scores res = map (fun c => (c, score (raw text) c)) CATEGORIES /\
    first_max (score (raw text)) (category res) /\
    confidence res = score (raw text) (category res).
Proof.
  destruct (exhaustive as_specified as_specified_everywhere text) as (res & Hres & H).
  exists res. split; [exact Hres|].
  rewrite raws_of_text in H. unfold as_specified in H.
  rewrite spec_scores_score in H.
  apply andb_true_iff in H. destruct H as [Hscores H].
  apply scores_eqb_eq in Hscores.
  apply existsb_exists in H. destruct H as (i & Hi & H).
  apply in_seq in Hi.
  apply andb_true_iff in H. destruct H as [H Hconf].
  apply andb_true_iff in H. destruct H as [Hc Hmax].
  apply String.eqb_eq in Hc. apply float_eqb_eq in Hconf.
  split; [|split].
  - rewrite Hscores. reflexivity.
  - apply first_max_at_sound with (i := i); [exact Hc | lia | exact Hmax].
  - rewrite Hconf, <- Hc.
    rewrite (nth_indep _ 0 (score (raw text) "")) by (rewrite length_map; lia).
    apply map_nth.
Qed.

End Classifier.

Section ClassifierModes.
Import Py model_service keyword_mode checks examples.
Open Scope float_scope.

Lemma in_unit_all (xs : list float) :
  forallb in_unit xs = true ->
  forall v, In v xs -> (0 <=? v) = true /\ (v <=? 1) = true.
Proof.
  intros Hunit v Hv. rewrite forallb_forall in Hunit.
  apply Hunit in Hv. now apply andb_true_iff in Hv.
Qed.

Lemma well_formed_sound (res : ClassificationResult) :
  well_formed res = true -> WellFormed res.
Proof.
  unfold well_formed, WellFormed. intros H.
  apply andb_true_iff in H. destruct H as [H Hsum].
  apply andb_true_iff in H. destruct H as [H Hunit].
  apply andb_true_iff in H. destruct H as [Hcat Hkeys].
  split; [|split; [|split]].
  - apply existsb_exists in Hcat. destruct Hcat as (c & Hin & Hc).
    apply String.eqb_eq in Hc. now rewrite Hc.
  - now apply list_eqb_eq.
  - now apply in_unit_all.
  - exact Hsum.
Qed.

(** Keyword mode never raises and its result is well formed. *)
Lemma _classify_mock_well_formed (text : string) :
  exists res, _classify_mock text = inr res /\ WellFormed res.
Proof.
  destruct (exhaustive (fun _ => well_formed) well_formed_everywhere text)
    as (res & Hres & H).
  exists res. split; [exact Hres | now apply well_formed_sound].
Qed.

Lemma argmax_from_lt (xs : list float) :
  forall best_i best i, (best_i < i)%nat ->
    (argmax_from best_i best i xs < i + length xs)%nat.
Proof.
  induction xs as [|y xs IH]; intros best_i best i Hlt; simpl; [lia|].
  destruct (best <? y).
  - specialize (IH i y (S i)). lia.
  - specialize (IH best_i best (S i)). lia.
Qed.

(** Model mode on a softmax row: the categories paired with the row. *)
Lemma model_mode_result (self : TicketClassifier) (text : string) (probs : list float) :
  use_mock self || negb (TORCH_AVAILABLE self) = false ->
  forward self text = inr probs ->
  distribution probs = true ->
  exists res, classify self text = inr res /\ WellFormed res.
Proof.
  intros Hmode Hfwd Hdist. unfold classify. rewrite Hmode, Hfwd.
  unfold distribution in Hdist.
  apply andb_true_iff in Hdist. destruct Hdist as [Hdist Hsum].
  apply andb_true_iff in Hdist. destruct Hdist as [Hlen Hunit].
  apply Nat.eqb_eq in Hlen.
  destruct probs as [|p0 [|p1 [|p2 [|p3 [|p4 [|p5 [|p6 probs]]]]]]];
    try discriminate Hlen.
  cbn [ebind etry argmax].
  pose proof (@argmax_from_lt [p1; p2; p3; p4; p5] 0 p0 1 Nat.lt_0_1) as Hi.
  remember (argmax_from 0 p0 1 [p1; p2; p3; p4; p5]) as i eqn:Ei. clear Ei.
  cbn [length Nat.add] in Hi.
  assert (Hres : forall c p,
             index CATEGORIES i = inr c -> index [p0; p1; p2; p3; p4; p5] i = inr p ->
             WellFormed {| category := c; confidence := p;
                           scores := combine CATEGORIES [p0; p1; p2; p3; p4; p5];
                           model := model_name self |}).
  { intros c p Hc Hp. unfold WellFormed. cbn [category scores].
    split; [|split; [|split]].
    - unfold index in Hc. destruct (nth_error CATEGORIES i) eqn:E; [|discriminate].
      injection Hc as <-. eapply nth_error_In, E.
    - reflexivity.
    - now apply in_unit_all.
    - exact Hsum. }
  do 6 (destruct i as [|i]; [eexists; split; [reflexivity | now apply Hres]|]).
  lia.
Qed.

(** C2.  For every text (the empty one included), [classify] returns, without
    raising, a category of the fixed set and scores whose keys are exactly
    the fixed set in order, each value in [0, 1], the values summing to 1
    within 1e-6.  In model mode this takes the model's softmax row to be a
    distribution over the six categories. *)
Theorem C2_classify_well_formed (self : TicketClassifier) (text : string)
    (Hmodel : forall probs, forward self text = inr probs -> distribution probs = true) :
  exists res,
    classify self text = inr res /\
    In (category res) CATEGORIES /\
    keys (scores res) = CATEGORIES /\
    (forall v, In v (values (scores res)) -> (0 <=? v) = true /\ (v <=? 1) = true) /\
    (abs (sum (values (scores res)) - 1) <=? 1e-6) = true.
Proof.
  change (exists res, classify self text = inr res /\ WellFormed res).
  destruct (use_mock self || negb (TORCH_AVAILABLE self)) eqn:Hmode.
  - unfold classify. rewrite Hmode. apply _classify_mock_well_formed.
  - destruct (forward self text) as [e|probs] eqn:Hfwd.
    + unfold classify. rewrite Hmode, Hfwd. apply _classify_mock_well_formed.
    + apply model_mode_result with (probs := probs); auto.
Qed.

Lemma C2_classify_well_formed_witness :
  exists res,
    classify fixed_row_classifier "my password is locked" = inr res /\
    In (category res) CATEGORIES /\
    keys (scores res) = CATEGORIES /\
    (forall v, In v (values (scores res)) -> (0 <=? v) = true /\ (v <=? 1) = true) /\
    (abs (sum (values (scores res)) - 1) <=? 1e-6) = true.
Proof.
  apply (@C2_classify_well_formed fixed_row_classifier "my password is locked").
  intros probs H. injection H as <-. reflexivity.
Defined.

(** The scores of a row that is too short cannot be collected. *)
Lemma category_scores_short (probs : list float) :
  (length probs < length CATEGORIES)%nat ->
  exists e, category_scores probs (seq 0 (length CATEGORIES)) [] = inl e.
Proof.
  intros H. cbn [length CATEGORIES] in H.
  destruct probs as [|p0 [|p1 [|p2 [|p3 [|p4 [|p5 probs]]]]]];
    cbn [length] in H; try lia; eexists; reflexivity.
Qed.

(** Model mode on a row with one entry per category: the scores are the
    row, the category and the confidence are read at the index of its
    maximum, and the result is named after the model. *)
Lemma model_mode_scores (self : TicketClassifier) (text : string) (probs : list float) :
  use_mock self || negb (TORCH_AVAILABLE self) = false ->
  forward self text = inr probs ->
  length probs = length CATEGORIES ->
  exists res i,
    classify self text = inr res /\
    scores res = combine CATEGORIES probs /\
    argmax probs = inr i /\
    nth_error CATEGORIES i = Some (category res) /\
    nth_error probs i = Some (confidence res) /\
    model res = model_name self.
Proof.
  intros Hmode Hfwd Hlen. unfold classify. rewrite Hmode, Hfwd.
  destruct probs as [|p0 [|p1 [|p2 [|p3 [|p4 [|p5 [|p6 probs]]]]]]];
    try discriminate Hlen.
  cbn [ebind etry argmax].
  pose proof (@argmax_from_lt [p1; p2; p3; p4; p5] 0 p0 1 Nat.lt_0_1) as Hi.
  remember (argmax_from 0 p0 1 [p1; p2; p3; p4; p5]) as i eqn:Ei.
  cbn [length Nat.add] in Hi.
  do 6 (destruct i as [|i];
        [eexists; eexists; split; [reflexivity|]; split; [reflexivity|];
         split; [reflexivity|]; repeat split|]).
  lia.
Qed.

(** C7, as stated, fails with a loaded model: there the empty text has no
    case of its own, and the result is what the model's row says. *)
Lemma C7_model_mode_empty_text :
  classify fixed_row_classifier ""
  = inr {| category := "billing";
           confidence := 0.5;
           scores := [ ("billing", 0.5); ("technical", 0.25); ("access", 0.25);
                       ("general", 0); ("bug_report", 0); ("feature_request", 0) ];
           model := "bert-base-uncased" |}.
Proof. vm_compute. reflexivity. Qed.

(** C7 (amended).  Classifying the empty text gives the catch-all category
    with confidence 1.0 and score 0 for every other category, without
    raising, whenever keyword mode decides: in keyword mode itself, for a
    classifier in mock mode or without PyTorch (one built without PyTorch
    or whose model failed to load in particular), and in model mode when
    inference raises or answers a row with fewer entries than there are
    categories.  In model mode with a row of one entry per category the
    result is the model's: the scores are the row, the category and the
    confidence are those at the index of its maximum, and the model is the
    loaded one. *)
Theorem C7_empty_text :
  let general_only :=
    {| category := "general";
       confidence := 1;
       scores := [ ("billing", 0); ("technical", 0); ("access", 0);
                   ("general", 1); ("bug_report", 0); ("feature_request", 0) ];
       model := "mock-classifier" |} in
  _classify_mock "" = inr general_only /\
  (forall self, use_mock self || negb (TORCH_AVAILABLE self) = true ->
                classify self "" = inr general_only) /\
  (forall self e, forward self "" = inl e -> classify self "" = inr general_only) /\
  (forall self probs, forward self "" = inr probs ->
                      (length probs < length CATEGORIES)%nat ->
                      classify self "" = inr general_only) /\
  (forall s loaded, classify (TicketClassifier_init s false loaded) "" = inr general_only) /\
  (forall s e, classify (TicketClassifier_init s true (inl e)) "" = inr general_only) /\
  (forall self probs,
      use_mock self || negb (TORCH_AVAILABLE self) = false ->
      forward self "" = inr probs ->
      length probs = length CATEGORIES ->
      exists res i,
        classify self "" = inr res /\
        scores res = combine CATEGORIES probs /\
        argmax probs = inr i /\
        nth_error CATEGORIES i = Some (category res) /\
        nth_error probs i = Some (confidence res) /\
        model res = model_name self).
Proof.
  intros general_only.
  assert (H : _classify_mock "" = inr general_only) by (vm_compute; reflexivity).
  split; [exact H|]. split; [|split; [|split; [|split; [|split]]]].
  - intros self Hmode. unfold classify. now rewrite Hmode.
  - intros self e He. unfold classify.
    destruct (use_mock self || negb (TORCH_AVAILABLE self)); [exact H|].
    rewrite He. exact H.
  - intros self probs Hp Hlen. unfold classify.
    destruct (use_mock self || negb (TORCH_AVAILABLE self)); [exact H|].
    rewrite Hp. destruct (@category_scores_short probs Hlen) as [e He].
    unfold ebind, etry.
    destruct (argmax probs) as [e0|i]; [exact H|].
    destruct (index CATEGORIES i) as [e1|c]; [exact H|].
    destruct (index probs i) as [e2|p]; [exact H|].
    rewrite He. exact H.
  - intros; exact H.
  - intros; exact H.
  - intros self probs. apply model_mode_scores.
Qed.

End ClassifierModes.

(** ** The collaborators: claims C3, C4 and C10 *)

Section Services.
Import Py runtime examples.

(** C3, as stated, fails for the issue tracker: with no Jira credentials,
    two calls of [create_issue] with the same arguments return different
    keys and ids, since the mock draws them at random. *)
Lemma C3_issue_tracker_mock_varies :
  jira_service.auth (app.jira unconfigured) = None /\
  fst (twice (jira_service.create_issue (app.jira unconfigured)
                "Printer down" "It broke" "Task" "Medium" None)
             (world [0; 1; 2; 3]%Z []))
  = inr ([ ("success", VBool true);
           ("issue_key", VStr "SUP-1000");
           ("issue_id", VStr "mock-10001");
           ("url", VStr "https://your-domain.atlassian.net/browse/SUP-1000");
           ("mock", VBool true) ],
         [ ("success", VBool true);
           ("issue_key", VStr "SUP-1002");
           ("issue_id", VStr "mock-10003");
           ("url", VStr "https://your-domain.atlassian.net/browse/SUP-1002");
           ("mock", VBool true) ]).
Proof. split; vm_compute; reflexivity. Qed.

(** C3 (amended).  With credentials or dependencies absent, the classifier,
    the chat notifier, the generation backend and the issue update answer
    with a mock that is a function of the arguments alone, leaving the world
    untouched; the mock of issue creation is fixed up to two random numbers,
    one in 1000..9999 for the key and one in 10000..99999 for the id. *)
Theorem C3_mock_responses :
  (forall self text,
      model_service.use_mock self = true ->
      model_service.classify self text = model_service._classify_mock text) /\
  (forall self text channel blocks thread_ts w,
      truthy_opt (slack_service.bot_token self) = false ->
      slack_service.send_message self text channel blocks thread_ts w
      = (inr (slack_service._send_mock_message self text channel), w)) /\
  (forall self prompt max_tokens w,
      watsonx_service.available self = false ->
      watsonx_service.generate_response self prompt max_tokens w
      = (inr (watsonx_service._generate_mock_response prompt), w)) /\
  (forall self issue_key summary description priority w,
      jira_service.auth self = None ->
      jira_service.update_issue self issue_key summary description priority w
      = (inr [ ("success", VBool true); ("message", VStr "Mock update successful") ], w)) /\
  (forall self summary description issue_type priority labels w,
      jira_service.auth self = None ->
      exists n m,
        (1000 <= n <= 9999)%Z /\ (10000 <= m <= 99999)%Z /\
        fst (jira_service.create_issue self summary description issue_type priority labels w)
        = inr [ ("success", VBool true);
                ("issue_key", VStr (jira_service.project_key self ++ "-" ++ str_int n));
                ("issue_id", VStr ("mock-" ++ str_int m));
                ("url", VStr (jira_service.url self ++ "/browse/"
                              ++ jira_service.project_key self ++ "-" ++ str_int n));
                ("mock", VBool true) ]).
Proof.
  repeat split.
  - intros self text H. unfold model_service.classify. now rewrite H.
  - intros self text channel blocks thread_ts w H.
    unfold slack_service.send_message. now rewrite H.
  - intros self prompt max_tokens w H.
    unfold watsonx_service.generate_response. now rewrite H.
  - intros self issue_key summary description priority w H.
    unfold jira_service.update_issue. now rewrite H.
  - intros self summary description issue_type priority labels w H.
    unfold jira_service.create_issue. rewrite H.
    unfold jira_service._create_mock_issue, bind, randint, ret.
    destruct (entropy w) as [|r1 rest] eqn:E1.
    + rewrite E1. exists 1000%Z, 10000%Z. split; [lia | split; [lia | reflexivity]].
    + pose proof (Z.mod_pos_bound r1 (9999 - 1000 + 1) ltac:(lia)).
      cbn [entropy]. destruct rest as [|r2 rest].
      * exists (1000 + r1 mod (9999 - 1000 + 1))%Z, 10000%Z.
        split; [lia | split; [lia | reflexivity]].
      * pose proof (Z.mod_pos_bound r2 (99999 - 10000 + 1) ltac:(lia)).
        exists (1000 + r1 mod (9999 - 1000 + 1))%Z, (10000 + r2 mod (99999 - 10000 + 1))%Z.
        split; [lia | split; [lia | reflexivity]].
Qed.



(** C10.  With the generation backend unavailable, a ticket text whose
    lower-cased form contains "suggest" or "response" makes
    [summarize_ticket] answer with the canned reply, which is not the
    canned summary: the selector reads the whole prompt, ticket text
    included, and tests the reply keywords first. *)
Theorem C10_summarize_ticket_reply_text (self : watsonx_service.WatsonXService)
    (ticket_text : string) (w : World)
    (Hmock : watsonx_service.available self = false)
    (Hword : contains "suggest" (lower ticket_text) = true
             \/ contains "response" (lower ticket_text) = true) :
  fst (watsonx_service.summarize_ticket self ticket_text w)
  = inr [ ("success", VBool true);
          ("text", VStr watsonx_service.reply_text);
          ("model", VStr "mock");
          ("mock", VBool true) ] /\
  watsonx_service.reply_text <> watsonx_service.summary_text.
Proof.
  split; [|discriminate].
  unfold watsonx_service.summarize_ticket, watsonx_service.generate_response.
  rewrite Hmock. cbn [negb ret fst].
  unfold watsonx_service._generate_mock_response.
  pose (head := "Summarize this support ticket in 2-3 sentences, highlighting the key issue and urgency."
                ++ nl ++ nl ++ "Ticket:" ++ nl).
  pose (tail := nl ++ nl ++ "Summary:").
  assert (E : lower (watsonx_service.summarize_prompt ticket_text)
              = lower head ++ lower ticket_text ++ lower tail).
  { rewrite <- !lower_app. reflexivity. }
  rewrite E.
  destruct Hword as [H|H].
  - rewrite (@contains_middle _ (lower head) _ (lower tail) H). reflexivity.
  - rewrite (@contains_middle _ (lower head) _ (lower tail) H).
    rewrite orb_true_r. reflexivity.
Qed.

Lemma C10_summarize_ticket_reply_text_witness :
  fst (watsonx_service.summarize_ticket (app.watsonx unconfigured)
         "Please suggest a fix" (world [] []))
  = inr [ ("success", VBool true);
          ("text", VStr watsonx_service.reply_text);
          ("model", VStr "mock");
          ("mock", VBool true) ] /\
  watsonx_service.reply_text <> watsonx_service.summary_text.
Proof.
  apply (@C10_summarize_ticket_reply_text (app.watsonx unconfigured)
           "Please suggest a fix" (world [] [])).
  - reflexivity.
  - left. vm_compute. reflexivity.
Defined.

End Services.

(** ** Computations that return *)

Section Returns.
Import Py runtime.

Lemma returns_ret {A} (a : A) (P : A -> Prop) : P a -> returns (ret a) P.
Proof. intros H w. exists a, w. split; [reflexivity | exact H]. Qed.

Lemma returns_lift {A} (a : A) (P : A -> Prop) : P a -> returns (lift (inr a)) P.
Proof. intros H w. exists a, w. split; [reflexivity | exact H]. Qed.

Lemma returns_bind {A B} (c : M A) (k : A -> M B) (Q : A -> Prop) (P : B -> Prop) :
  returns c Q -> (forall a, Q a -> returns (k a) P) -> returns (bind c k) P.
Proof.
  intros Hc Hk w. destruct (Hc w) as (a & w1 & E & Ha).
  destruct (Hk a Ha w1) as (b & w2 & E2 & Hb).
  exists b, w2. unfold bind. rewrite E. split; [exact E2 | exact Hb].
Qed.

(** A body that returns is not affected by its handler. *)
Lemma returns_try {A} (body : M A) (handler : exn -> M A) (P : A -> Prop) :
  returns body P -> returns (try_except body handler) P.
Proof.
  intros Hb w. destruct (Hb w) as (a & w1 & E & Ha).
  exists a, w1. unfold try_except. rewrite E. split; [reflexivity | exact Ha].
Qed.

(** A handler that returns makes the whole [try] return. *)
Lemma returns_handled {A} (body : M A) (handler : exn -> M A) (P : A -> Prop) :
  (forall w a w', body w = (inr a, w') -> P a) ->
  (forall e, returns (handler e) P) ->
  returns (try_except body handler) P.
Proof.
  intros Hb Hh w. unfold try_except.
  destruct (body w) as [[e|a] w1] eqn:E.
  - apply Hh.
  - exists a, w1. split; [reflexivity | exact (Hb _ _ _ E)].
Qed.

Lemma returns_weaken {A} (c : M A) (P Q : A -> Prop) :
  returns c P -> (forall a, P a -> Q a) -> returns c Q.
Proof.
  intros Hc HPQ w. destruct (Hc w) as (a & w1 & E & Ha).
  exists a, w1. split; [exact E | exact (HPQ a Ha)].
Qed.

(** Pure code that returns, followed by the rest. *)
Lemma returns_bind_lift {A B} (a : A) (k : A -> M B) (P : B -> Prop) :
  returns (k a) P -> returns (bind (lift (inr a)) k) P.
Proof. intros H w. exact (H w). Qed.

Lemma returns_in_ret {A} (I : World -> Prop) (a : A) (P : A -> Prop) :
  P a -> returns_in I (ret a) P.
Proof. intros H w Hw. exists a, w. repeat split; assumption. Qed.

Lemma returns_in_bind {A B} (I : World -> Prop) (c : M A) (k : A -> M B)
    (Q : A -> Prop) (P : B -> Prop) :
  returns_in I c Q -> (forall a, Q a -> returns_in I (k a) P) ->
  returns_in I (bind c k) P.
Proof.
  intros Hc Hk w Hw. destruct (Hc w Hw) as (a & w1 & E & Ha & Hw1).
  destruct (Hk a Ha w1 Hw1) as (b & w2 & E2 & Hb & Hw2).
  exists b, w2. unfold bind. rewrite E. repeat split; assumption.
Qed.

Lemma returns_in_bind_lift {A B} (I : World -> Prop) (a : A) (k : A -> M B)
    (P : B -> Prop) :
  returns_in I (k a) P -> returns_in I (bind (lift (inr a)) k) P.
Proof. intros H w Hw. exact (H w Hw). Qed.

Lemma returns_in_try {A} (I : World -> Prop) (body : M A) (handler : exn -> M A)
    (P : A -> Prop) :
  returns_in I body P -> returns_in I (try_except body handler) P.
Proof.
  intros Hb w Hw. destruct (Hb w Hw) as (a & w1 & E & Ha & Hw1).
  exists a, w1. unfold try_except. rewrite E. repeat split; assumption.
Qed.

Lemma randint_returns (a b : Z) : returns (randint a b) (fun _ => True).
Proof.
  intros w. unfold randint. destruct (entropy w); eexists; eexists; split; eauto.
Qed.

End Returns.

Section Collaborators.
Import Py runtime examples.

(** The classifier never raises, whatever its mode and its model. *)
Lemma classify_returns (self : model_service.TicketClassifier) (text : string) :
  exists res, model_service.classify self text = inr res.
Proof.
  destruct (_classify_mock_well_formed text) as (res & Hres & _).
  unfold model_service.classify.
  destruct (model_service.use_mock self || negb (model_service.TORCH_AVAILABLE self)).
  - exists res. exact Hres.
  - match goal with |- context [etry ?b _] => destruct b as [e|r] end.
    + exists res. exact Hres.
    + exists r. reflexivity.
Qed.

(** The generation primitive never raises, and the text of its result is a
    text when the backend is unavailable or its answers hold texts. *)
Lemma generate_response_returns_in (self : watsonx_service.WatsonXService)
    (prompt : string) (max_tokens : Z) :
  returns_in (fun w => watsonx_service.available self = false \/ texts_only w)
    (watsonx_service.generate_response self prompt max_tokens) has_text.
Proof.
  unfold watsonx_service.generate_response, has_text, is_text.
  destruct (watsonx_service.available self) eqn:Ha; cbn [negb].
  - intros w [Hw|Hw]; [discriminate Hw|].
    unfold try_except, bind, model_generate, lift, ret.
    unfold texts_only in *.
    destruct (watsonx_api w) as [|[e|response] rest] eqn:Hapi.
    + eexists; eexists; split; [reflexivity|]. split; [cbn; eauto|].
      right. constructor.
    + inversion Hw as [|x l _ Hrest]; subst.
      eexists; eexists; split; [reflexivity|]. split; [cbn; eauto|].
      right. exact Hrest.
    + inversion Hw as [|x l Hhead Hrest]; subst. cbn [answer_texts] in Hhead.
      destruct (results response) as [[|[v|] l]|].
      * eexists; eexists; split; [reflexivity|]. split; [cbn; eauto|].
        right. exact Hrest.
      * eexists; eexists; split; [reflexivity|]. split; [cbn; eauto|].
        right. exact Hrest.
      * eexists; eexists; split; [reflexivity|]. split; [cbn; eauto|].
        right. exact Hrest.
      * eexists; eexists; split; [reflexivity|]. split; [cbn; eauto|].
        right. exact Hrest.
  - intros w Hw. eexists; eexists; split; [reflexivity|].
    split; [cbn; eauto | now left].
Qed.

(** Issue creation never raises: a failure becomes an error payload. *)
Lemma create_issue_returns (self : jira_service.JiraService)
    (summary description issue_type priority : string) (labels : option (list string)) :
  returns (jira_service.create_issue self summary description issue_type priority labels)
          (fun _ => True).
Proof.
  unfold jira_service.create_issue. destruct (jira_service.auth self).
  - apply returns_handled; [trivial|]. intros e. now apply returns_ret.
  - unfold jira_service._create_mock_issue.
    eapply returns_bind; [apply randint_returns|]. intros n _.
    eapply returns_bind; [apply randint_returns|]. intros m _.
    now apply returns_ret.
Qed.

(** Sending a message never raises either. *)
Lemma send_message_returns (self : slack_service.SlackService) (text : string)
    (channel : option string) (blocks : option (list value)) (thread_ts : option string) :
  returns (slack_service.send_message self text channel blocks thread_ts) (fun _ => True).
Proof.
  unfold slack_service.send_message.
  destruct (negb (truthy_opt (slack_service.bot_token self))).
  - now apply returns_ret.
  - apply returns_handled; [trivial|]. intros e. now apply returns_ret.
Qed.

End Collaborators.

(** ** The handlers *)

Section Handlers.
Import Py runtime app examples.

Lemma optional_str_text (field : string) (o : option value) :
  opt_text o -> exists r, classify_routes.optional_str field o = inr r.
Proof.
  destruct o as [v|]; cbn [opt_text]; [|eexists; reflexivity].
  intros [->|[s ->]]; eexists; reflexivity.
Qed.

Lemma generated_text_returns_in (I : World -> Prop) (c : M (dict value))
    (wanted : bool) :
  returns_in I c has_text ->
  returns_in I (if wanted
                then r <- c ;; ret (Some (dict_get_default "text" (VStr "") r))
                else ret None) opt_text.
Proof.
  intros Hc. destruct wanted.
  - eapply returns_in_bind; [exact Hc|]. intros d (v & Hv & Ht).
    apply returns_in_ret. unfold dict_get_default. rewrite Hv. exact Ht.
  - now apply returns_in_ret.
Qed.

Lemma classify_ticket_returns_in (a : App) (request : classify_routes.TicketRequest) :
  returns_in (fun w => watsonx_service.available (watsonx a) = false \/ texts_only w)
    (classify_routes.classify_ticket a request) (fun _ => True).
Proof.
  unfold classify_routes.classify_ticket. apply returns_in_try.
  destruct (classify_returns (classifier a) (classify_routes.text request)) as [res E].
  rewrite E.
  apply returns_in_bind_lift.
  eapply returns_in_bind;
    [apply generated_text_returns_in, generate_response_returns_in|].
  intros suggestion Hs.
  eapply returns_in_bind;
    [apply generated_text_returns_in, generate_response_returns_in|].
  intros summary Hm.
  destruct (@optional_str_text "suggestion" suggestion Hs) as [s1 E1]. rewrite E1.
  apply returns_in_bind_lift.
  destruct (@optional_str_text "summary" summary Hm) as [s2 E2]. rewrite E2.
  apply returns_in_bind_lift.
  now apply returns_in_ret.
Qed.

Lemma route_ticket_returns (a : App) (request : route_routes.RouteRequest.t) :
  returns (route_routes.route_ticket a request) (fun _ => True).
Proof.
  unfold route_routes.route_ticket. apply returns_try.
  destruct (classify_returns (classifier a) (route_routes.RouteRequest.text request))
    as [res E].
  rewrite E.
  apply returns_bind_lift.
  eapply returns_bind with (Q := fun _ => True).
  { destruct (route_routes.RouteRequest.create_jira request).
    - eapply returns_bind; [apply create_issue_returns|]. intros. now apply returns_ret.
    - now apply returns_ret. }
  intros jira_issue _.
  eapply returns_bind with (Q := fun _ => True).
  { destruct (route_routes.RouteRequest.send_slack request).
    - eapply returns_bind; [apply send_message_returns|]. intros. now apply returns_ret.
    - now apply returns_ret. }
  intros slack_message _. now apply returns_ret.
Qed.

Lemma route_each_returns (a : App) (tickets : list route_routes.RouteRequest.t) :
  forall results, returns (route_routes.route_each a tickets results) (fun _ => True).
Proof.
  induction tickets as [|ticket tickets IH]; intros results; cbn [route_routes.route_each].
  - now apply returns_ret.
  - eapply returns_bind; [apply route_ticket_returns|]. intros result _. apply IH.
Qed.

(** C5.  The handlers never raise, so that the endpoint answers 200 and
    not through the 500 branch:
    - in mock mode, where nothing is configured, the classify handler
      returns its response for every request and every world;
    - in any mode it does so whenever the generation backend is unavailable
      or its answers, where they hold a generated text, hold a string or a
      null (the backend may as well raise, or answer without results);
    - the route and batch handlers return their response for every
      application, every request and every world, whatever the
      collaborators answer or raise. *)
Theorem C5_handlers_never_raise (a : App) (w : World) :
  (mock_mode a = true ->
   forall request, exists response w',
     classify_routes.classify_ticket a request w = (inr response, w')) /\
  (watsonx_service.available (watsonx a) = false \/ texts_only w ->
   forall request, exists response w',
     classify_routes.classify_ticket a request w = (inr response, w')) /\
  (forall request, exists response w',
      route_routes.route_ticket a request w = (inr response, w')) /\
  (forall tickets, exists response w',
      route_routes.route_tickets_batch a tickets w = (inr response, w')).
Proof.
  assert (Hclassify :
            watsonx_service.available (watsonx a) = false \/ texts_only w ->
            forall request, exists response w',
              classify_routes.classify_ticket a request w = (inr response, w')).
  { intros Hw request.
    destruct (@classify_ticket_returns_in a request w Hw) as (r & w' & E & _). eauto. }
  split; [|split; [exact Hclassify|split]].
  - intros Hmock. apply Hclassify. left.
    unfold mock_mode in Hmock. apply andb_true_iff in Hmock.
    destruct Hmock as [_ Hmock]. now apply negb_true_iff in Hmock.
  - intros request.
    destruct (route_ticket_returns a request w) as (r & w' & E & _). eauto.
  - intros tickets.
    assert (H : returns (route_routes.route_tickets_batch a tickets) (fun _ => True)).
    { unfold route_routes.route_tickets_batch. apply returns_try.
      eapply returns_bind; [apply route_each_returns|]. intros. now apply returns_ret. }
    destruct (H w) as (r & w' & E & _). eauto.
Qed.

Lemma routing_config_for_get (s : config.Settings) (category : string) :
  route_routes.routing_config_for s category
  = match dict_get category config.CATEGORY_ROUTING with
    | Some entry => entry
    | None => [ ("jira_priority", "Medium"); ("slack_channel", config.SLACK_CHANNEL_ID s) ]
    end.
Proof. reflexivity. Qed.

(** C6.  The routing lookup gives a category with no entry in the table,
    [bug_report] and [feature_request] in particular, the default of
    priority Medium and the configured default channel; a category with an
    entry gets that entry unchanged. *)
Theorem C6_routing_config_lookup (s : config.Settings) :
  (forall category,
      dict_get category config.CATEGORY_ROUTING = None ->
      route_routes.routing_config_for s category
      = [ ("jira_priority", "Medium"); ("slack_channel", config.SLACK_CHANNEL_ID s) ]) /\
  route_routes.routing_config_for s "bug_report"
  = [ ("jira_priority", "Medium"); ("slack_channel", config.SLACK_CHANNEL_ID s) ] /\
  route_routes.routing_config_for s "feature_request"
  = [ ("jira_priority", "Medium"); ("slack_channel", config.SLACK_CHANNEL_ID s) ] /\
  (forall category entry,
      dict_get category config.CATEGORY_ROUTING = Some entry ->
      route_routes.routing_config_for s category = entry) /\
  route_routes.routing_config_for s "billing"
  = [ ("jira_priority", "High"); ("slack_channel", "#billing") ] /\
  route_routes.routing_config_for s "technical"
  = [ ("jira_priority", "Medium"); ("slack_channel", "#technical") ] /\
  route_routes.routing_config_for s "access"
  = [ ("jira_priority", "High"); ("slack_channel", "#access") ] /\
  route_routes.routing_config_for s "general"
  = [ ("jira_priority", "Low"); ("slack_channel", "#general") ].
Proof.
  repeat split; try reflexivity.
  - intros category H. now rewrite (routing_config_for_get s category), H.
  - intros category entry H. now rewrite (routing_config_for_get s category), H.
Qed.

End Handlers.

(** ** Batch routing *)

Section Batch.
Import Py runtime app route_routes examples.

Lemma route_each_routed (a : App) (tickets : list RouteRequest.t) :
  forall acc w out w',
    route_each a tickets acc w = (inr out, w') ->
    exists results,
      routed a w tickets results w' /\
      out = (acc ++ map RouteResponse.dict results)%list.
Proof.
  induction tickets as [|ticket tickets IH]; intros acc w out w' H;
    cbn [route_each] in H.
  - injection H as <- <-. exists []. split; [constructor|].
    cbn [map]. now rewrite app_nil_r.
  - unfold bind in H.
    destruct (route_ticket a ticket w) as [[e|result] w1] eqn:E; [discriminate|].
    destruct (IH _ _ _ _ H) as (results & Hr & ->).
    exists (result :: results). split; [econstructor; eassumption|].
    cbn [map]. now rewrite <- app_assoc.
Qed.

Lemma routed_length (a : App) w tickets results w' :
  routed a w tickets results w' -> length results = length tickets.
Proof. induction 1; cbn [length]; congruence. Qed.

Lemma routed_nth (a : App) w tickets results w' :
  routed a w tickets results w' ->
  forall i ticket, nth_error tickets i = Some ticket ->
    exists result wi wi',
      nth_error results i = Some result /\
      route_ticket a ticket wi = (inr result, wi').
Proof.
  induction 1 as [|w ticket0 tickets result0 w1 results w2 E _ IH];
    intros [|i] ticket Hi; cbn [nth_error] in *; try discriminate.
  - injection Hi as <-. exists result0, w, w1. split; [reflexivity | exact E].
  - exact (IH i ticket Hi).
Qed.

(** C9.  When batch routing of [tickets] succeeds, its response counts as
    processed the length of [tickets], and its results are, in the order of
    the input, the responses of [route_ticket] for the tickets: as many, the
    i-th being the response for the i-th ticket. *)
Theorem C9_batch_preserves_order (a : App) (tickets : list RouteRequest.t)
    (w w' : World) (response : dict value)
    (Hok : route_tickets_batch a tickets w = (inr response, w')) :
  exists results,
    routed a w tickets results w' /\
    response = [ ("processed", VInt (Z.of_nat (length tickets)));
                 ("results", VList (map (fun r => VDict (RouteResponse.dict r)) results)) ] /\
    length results = length tickets /\
    forall i ticket, nth_error tickets i = Some ticket ->
      exists result wi wi',
        nth_error results i = Some result /\
        route_ticket a ticket wi = (inr result, wi').
Proof.
  unfold route_tickets_batch, try_except, bind in Hok.
  destruct (route_each a tickets [] w) as [[e|out] w1] eqn:E; [discriminate|].
  injection Hok as <- <-.
  destruct (route_each_routed _ _ _ _ E) as (results & Hr & ->).
  exists results. cbn [app].
  rewrite length_map, map_map, (routed_length Hr).
  repeat split; [exact Hr | exact (routed_nth Hr)].
Qed.

Lemma C9_batch_preserves_order_witness :
  exists results,
    routed unconfigured batch_world batch_tickets results (snd batch_run) /\
    batch_response
    = [ ("processed", VInt (Z.of_nat (length batch_tickets)));
        ("results", VList (map (fun r => VDict (RouteResponse.dict r)) results)) ] /\
    length results = length batch_tickets /\
    forall i ticket, nth_error batch_tickets i = Some ticket ->
      exists result wi wi',
        nth_error results i = Some result /\
        route_ticket unconfigured ticket wi = (inr result, wi').
Proof.
  apply (@C9_batch_preserves_order unconfigured batch_tickets batch_world
           (snd batch_run) batch_response).
  vm_compute. reflexivity.
Defined.

End Batch.

(** ** The notification of a routed ticket *)

Section Notification.
Import Py runtime app route_routes examples scenarios.

Lemma send_ticket_notification_returns (s : config.Settings)
    (self : slack_service.SlackService) (ticket_id category summary : string)
    (jira_key channel : option string) :
  returns (slack_service.send_ticket_notification s self ticket_id category summary
             jira_key channel) (fun _ => True).
Proof. unfold slack_service.send_ticket_notification. apply send_message_returns. Qed.









End Notification.

(** * Further properties *)

(** ** The keyword classifier and its keyword table *)

Section KeywordFacts.
Import Py model_service counts count_checks.
Open Scope float_scope.

(** A check on counts that holds on every vector of counts holds for every
    text, at the counts of the text. *)
Lemma exhaustive_counts
    (P : nat -> nat -> nat -> nat -> nat -> ClassificationResult -> bool) :
  holds_for_counts P = true ->
  forall text, exists res,
    _classify_mock text = inr res /\
    P (hits (lower text) "billing") (hits (lower text) "technical")
      (hits (lower text) "access") (hits (lower text) "bug_report")
      (hits (lower text) "feature_request") res = true.
Proof.
  intros H text. set (tl := lower text).
  pose proof (hits_le tl "billing") as Hb.
  pose proof (hits_le tl "technical") as Ht.
  pose proof (hits_le tl "access") as Ha.
  pose proof (hits_le tl "bug_report") as Hr.
  pose proof (hits_le tl "feature_request") as Hf.
  change (length (dict_get_default "billing" [] keywords)) with 8%nat in Hb.
  change (length (dict_get_default "technical" [] keywords)) with 8%nat in Ht.
  change (length (dict_get_default "access" [] keywords)) with 7%nat in Ha.
  change (length (dict_get_default "bug_report" [] keywords)) with 5%nat in Hr.
  change (length (dict_get_default "feature_request" [] keywords)) with 6%nat in Hf.
  unfold holds_for_counts in H.
  apply forallb_seq with (k := hits tl "billing") in H; [|lia].
  apply forallb_seq with (k := hits tl "technical") in H; [|lia].
  apply forallb_seq with (k := hits tl "access") in H; [|lia].
  apply forallb_seq with (k := hits tl "bug_report") in H; [|lia].
  apply forallb_seq with (k := hits tl "feature_request") in H; [|lia].
  unfold holds_at_counts in H.
  rewrite _classify_mock_scored, !keyword_score_hits. fold tl.
  change (hits tl "general") with 0%nat.
  destruct (scored _ _ _ _ _ _) as [e|res]; [discriminate|].
  exists res. split; [reflexivity | exact H].
Qed.

Lemma filter_none {A} (f : A -> bool) (l : list A) :
  length (filter f l) = 0%nat <-> forall x, In x l -> f x = false.
Proof.
  induction l as [|y l IH]; cbn [filter].
  - split; [intros _ x [] | reflexivity].
  - destruct (f y) eqn:E; cbn [length].
    + split; [discriminate|]. intros H. specialize (H y (or_introl eq_refl)). congruence.
    + rewrite IH. split.
      * intros H x [<-|Hx]; [exact E | exact (H x Hx)].
      * intros H x Hx. apply H. now right.
Qed.

Lemma hits_zero (text_lower category : string) :
  hits text_lower category = 0%nat <->
  forall kw, In kw (dict_get_default category [] keywords) ->
             contains kw text_lower = false.
Proof. unfold hits. apply filter_none. Qed.

Lemma no_hits (text : string) :
  (hits (lower text) "billing" + hits (lower text) "technical"
   + hits (lower text) "access" + hits (lower text) "bug_report"
   + hits (lower text) "feature_request" = 0)%nat <-> no_keyword text.
Proof.
  unfold no_keyword. split.
  - intros H category kws kw Hc Hkw.
    assert (Hall : forall c, In c ["billing"; "technical"; "access"; "bug_report";
                                   "feature_request"] ->
                             hits (lower text) c = 0%nat).
    { intros c [<-|[<-|[<-|[<-|[<-|[]]]]]]; lia. }
    cbn [keywords dict_get] in Hc.
    repeat match type of Hc with
           | (if String.eqb ?x ?y then _ else _) = _ =>
               destruct (String.eqb_spec x y) as [->|_]
           end;
      try discriminate Hc; injection Hc as <-.
    + apply (proj1 (hits_zero (lower text) "billing")); [apply Hall; cbn; tauto | exact Hkw].
    + apply (proj1 (hits_zero (lower text) "technical")); [apply Hall; cbn; tauto | exact Hkw].
    + apply (proj1 (hits_zero (lower text) "access")); [apply Hall; cbn; tauto | exact Hkw].
    + apply (proj1 (hits_zero (lower text) "bug_report")); [apply Hall; cbn; tauto | exact Hkw].
    + apply (proj1 (hits_zero (lower text) "feature_request"));
        [apply Hall; cbn; tauto | exact Hkw].
    + destruct Hkw.
  - intros H.
    assert (Hc : forall c kws, dict_get c keywords = Some kws ->
                               hits (lower text) c = 0%nat).
    { intros c kws Hc. apply hits_zero. unfold dict_get_default. rewrite Hc.
      intros kw Hkw. exact (H c kws kw Hc Hkw). }
    rewrite (Hc "billing" _ eq_refl), (Hc "technical" _ eq_refl),
      (Hc "access" _ eq_refl), (Hc "bug_report" _ eq_refl),
      (Hc "feature_request" _ eq_refl).
    reflexivity.
Qed.

Lemma general_check_everywhere : holds_for_counts general_check = true.
Proof. vm_compute. reflexivity. Qed.

Lemma bug_report_check_everywhere : holds_for_counts bug_report_check = true.
Proof. vm_compute. reflexivity. Qed.

Lemma floor_check_everywhere : holds_for_counts floor_check = true.
Proof. vm_compute. reflexivity. Qed.

(** X1.  Keyword mode returns [general] exactly for the texts in which no
    keyword of the table occurs (after lower-casing), and then with
    confidence 1: since [general] has no keyword of its own, any keyword
    found moves the ticket to another category. *)
Theorem X1_general_iff_no_keyword (text : string) :
  exists res,
    _classify_mock text = inr res /\
    (category res = "general" <-> no_keyword text) /\
    (category res = "general" -> confidence res = 1).
Proof.
  destruct (exhaustive_counts general_check general_check_everywhere text)
    as (res & Hres & H).
  exists res. split; [exact Hres|].
  unfold general_check in H. rewrite <- no_hits.
  destruct (String.eqb_spec (category res) "general") as [E|E].
  - apply andb_true_iff in H. destruct H as [H0 H1].
    apply Nat.eqb_eq in H0.
    split; [tauto|]. intros _. now apply float_eqb_eq.
  - apply negb_true_iff, Nat.eqb_neq in H. split; [tauto|]. intros E'. now elim E.
Qed.

(** Without "defect", every keyword of [bug_report] found is one of
    [technical] too. *)
Lemma hits_bug_report_le (text_lower : string) :
  contains "defect" text_lower = false ->
  (hits text_lower "bug_report" <= hits text_lower "technical")%nat.
Proof.
  intros H. unfold hits.
  change (dict_get_default "bug_report" [] keywords)
    with ["bug"; "error"; "crash"; "broken"; "defect"].
  change (dict_get_default "technical" [] keywords)
    with ["error"; "bug"; "crash"; "not working"; "broken"; "issue"; "problem"; "technical"].
  cbn [filter]. rewrite H.
  destruct (contains "bug" text_lower), (contains "error" text_lower),
    (contains "crash" text_lower), (contains "broken" text_lower),
    (contains "not working" text_lower), (contains "issue" text_lower),
    (contains "problem" text_lower), (contains "technical" text_lower);
    cbn [length]; lia.
Qed.

(** X2.  Keyword mode returns [bug_report] only for texts that contain
    "defect" (after lower-casing): the other keywords of [bug_report] are
    keywords of [technical], which comes first and so wins the tie. *)
Theorem X2_bug_report_needs_defect (text : string) :
  exists res,
    _classify_mock text = inr res /\
    (category res = "bug_report" -> contains "defect" (lower text) = true).
Proof.
  destruct (exhaustive_counts bug_report_check bug_report_check_everywhere text)
    as (res & Hres & H).
  exists res. split; [exact Hres|]. intros Hc.
  destruct (contains "defect" (lower text)) eqn:Hd; [reflexivity|].
  apply hits_bug_report_le in Hd. apply Nat.leb_le in Hd.
  unfold bug_report_check in H. rewrite Hd, Hc in H. discriminate H.
Qed.

(** X3.  The confidence of keyword mode is never below
    0.19999999999999998, one rounding step under 1/5; the bound is reached
    when the five categories with keywords tie. *)
Theorem X3_keyword_confidence_floor :
  (forall text, exists res,
      _classify_mock text = inr res /\
      (0.19999999999999998 <=? confidence res) = true) /\
  (0.19999999999999998 <? 0.2) = true /\
  (exists res, _classify_mock "Refund for a bug at login, a feature" = inr res /\
               confidence res = 0.19999999999999998).
Proof.
  split; [|split].
  - intros text.
    destruct (exhaustive_counts floor_check floor_check_everywhere text)
      as (res & Hres & H).
    exists res. split; [exact Hres | exact H].
  - vm_compute. reflexivity.
  - eexists. split; vm_compute; reflexivity.
Qed.

End KeywordFacts.

(** ** The classifier in model mode, in batches, and as health reports it *)

Section ClassifierFacts.
Import Py model_service scenarios.

(** Every result of keyword mode names the keyword classifier. *)
Lemma _classify_mock_model (text : string) (res : ClassificationResult) :
  _classify_mock text = inr res -> model res = "mock-classifier".
Proof.
  rewrite _classify_mock_scored. unfold counts.scored, ebind.
  repeat match goal with
         | |- context [match ?x with inl _ => _ | inr _ => _ end] => destruct x
         end;
    intros H; try discriminate H; injection H as <-; reflexivity.
Qed.

(** X4.  In model mode, when inference raises or answers a row with fewer
    entries than there are categories, [classify] returns the result of
    keyword mode for the same text, named "mock-classifier" and not after
    the loaded model. *)
Theorem X4_classify_falls_back (self : TicketClassifier) (text : string)
    (Hmode : use_mock self = false /\ TORCH_AVAILABLE self = true)
    (Hfail : forall probs, forward self text = inr probs ->
                           (length probs < length CATEGORIES)%nat) :
  exists res,
    classify self text = inr res /\
    _classify_mock text = inr res /\
    model res = "mock-classifier".
Proof.
  destruct Hmode as [Hm Ht].
  destruct (_classify_mock_well_formed text) as (res & Hres & _).
  exists res. split; [|split; [exact Hres | exact (_classify_mock_model _ Hres)]].
  unfold classify. rewrite Hm, Ht. cbn [orb negb].
  destruct (forward self text) as [e|probs] eqn:Hfwd; [exact Hres|].
  destruct (@category_scores_short probs (Hfail probs eq_refl)) as [e He].
  unfold ebind, etry.
  destruct (argmax probs) as [e0|i]; [exact Hres|].
  destruct (index CATEGORIES i) as [e1|c]; [exact Hres|].
  destruct (index probs i) as [e2|p]; [exact Hres|].
  rewrite He. exact Hres.
Qed.

Lemma X4_classify_falls_back_witness :
  exists res,
    classify short_row_classifier "I was charged twice" = inr res /\
    _classify_mock "I was charged twice" = inr res /\
    model res = "mock-classifier".
Proof.
  apply (@X4_classify_falls_back short_row_classifier "I was charged twice").
  - split; reflexivity.
  - intros probs H. injection H as <-. cbn. lia.
Defined.

(** X5.  [classify_batch] never fails part-way: it gives one result per
    text, in the order of the texts, the i-th being the result of
    [classify] on the i-th text. *)
Theorem X5_classify_batch_results (self : TicketClassifier) (texts : list string) :
  exists results,
    classify_batch self texts = map inr results /\
    length results = length texts /\
    forall i text, nth_error texts i = Some text ->
      exists res, nth_error results i = Some res /\ classify self text = inr res.
Proof.
  unfold classify_batch. induction texts as [|text texts IH].
  - exists []. repeat split. intros [|i] t H; discriminate H.
  - destruct IH as (results & E & Hlen & Hnth).
    destruct (classify_returns self text) as [res Hres].
    exists (res :: results). cbn [map length]. rewrite E, Hres, Hlen.
    repeat split. intros [|i] t H; cbn [nth_error] in *.
    + injection H as <-. exists res. split; [reflexivity | exact Hres].
    + exact (Hnth i t H).
Qed.

(** X6.  When PyTorch is installed and the model fails to load, the health
    check still reports the configured model name, while every
    classification is made by, and names, the keyword classifier; without
    PyTorch both name the keyword classifier. *)
Theorem X6_health_model_name (s : config.Settings) (e : exn)
    (loaded : Exc (string -> Exc (list float))) :
  main.health_check (inr (TicketClassifier_init s true (inl e)))
  = [ ("status", VStr "healthy");
      ("services", VDict [ ("classifier", VStr "available");
                           ("model", VStr (config.MODEL_NAME s)) ]) ] /\
  (forall text, exists res,
      classify (TicketClassifier_init s true (inl e)) text = inr res /\
      model res = "mock-classifier") /\
  main.health_check (inr (TicketClassifier_init s false loaded))
  = [ ("status", VStr "healthy");
      ("services", VDict [ ("classifier", VStr "available");
                           ("model", VStr "mock-classifier") ]) ] /\
  (forall text, exists res,
      classify (TicketClassifier_init s false loaded) text = inr res /\
      model res = "mock-classifier").
Proof.
  assert (H : forall text, exists res,
               _classify_mock text = inr res /\ model res = "mock-classifier").
  { intros text. destruct (_classify_mock_well_formed text) as (res & Hres & _).
    exists res. split; [exact Hres | exact (_classify_mock_model _ Hres)]. }
  repeat split; try reflexivity; exact H.
Qed.

End ClassifierFacts.

(** ** The issue tracker and the chat notifier *)

Section TrackerFacts.
Import Py runtime examples scenarios.

(** X7.  Issue creation never raises, and its result is one of two shapes
    whatever Jira answers: a success with an issue key, an issue id and a
    url, or a failure with an error text (a refused request, an unreadable
    answer and a connection failure all end there). *)
Theorem X7_create_issue_result (self : jira_service.JiraService)
    (summary description issue_type priority : string)
    (labels : option (list string)) (w : World) :
  exists d w',
    jira_service.create_issue self summary description issue_type priority labels w
    = (inr d, w') /\
    issue_result d.
Proof.
  unfold jira_service.create_issue, issue_result, has_str.
  destruct (jira_service.auth self).
  - unfold try_except, bind, jira_post, lift, ret.
    destruct (jira_api w) as [|[e|response] rest].
    + eexists; eexists; split; [reflexivity|]. right. cbn. eauto.
    + eexists; eexists; split; [reflexivity|]. right. cbn. eauto.
    + destruct (status_code response =? 201)%Z.
      * destruct (json response) as [e|issue_data].
        -- eexists; eexists; split; [reflexivity|]. right. cbn. eauto.
        -- eexists; eexists; split; [reflexivity|]. left. cbn. eauto.
      * eexists; eexists; split; [reflexivity|]. right. cbn. eauto.
  - unfold jira_service._create_mock_issue, bind, randint, ret.
    destruct (entropy w) as [|r1 rest] eqn:E1.
    + rewrite E1. eexists; eexists; split; [reflexivity|]. left. cbn. eauto.
    + cbn [entropy]. destruct rest as [|r2 rest];
        (eexists; eexists; split; [reflexivity|]; left; cbn; eauto).
Qed.

(** X8.  Without credentials issue creation contacts nobody.  With
    credentials it sends exactly one request, to
    [<url>/rest/api/3/issue], whatever the answer (no retry); the request
    carries the summary and the priority, and carries labels only when
    the list of labels is given and not empty. *)
Theorem X8_create_issue_requests (self : jira_service.JiraService)
    (summary description issue_type priority : string)
    (labels : option (list string)) (w : World) :
  (jira_service.auth self = None ->
   untouched w
     (snd (jira_service.create_issue self summary description issue_type priority
             labels w))) /\
  (forall credentials, jira_service.auth self = Some credentials ->
     exists fields,
       outbox (snd (jira_service.create_issue self summary description issue_type
                      priority labels w))
       = (jira_service.url self ++ "/rest/api/3/issue", VDict [("fields", VDict fields)])
         :: outbox w /\
       dict_get "summary" fields = Some (VStr summary) /\
       dict_get "priority" fields = Some (VDict [("name", VStr priority)]) /\
       dict_get "labels" fields
       = match labels with
         | Some (l :: ls) => Some (VList (map VStr (l :: ls)))
         | _ => None
         end).
Proof.
  unfold jira_service.create_issue. split.
  - intros ->. unfold jira_service._create_mock_issue, bind, randint, ret, untouched.
    destruct (entropy w) as [|r1 rest] eqn:E1.
    + rewrite E1. cbn. tauto.
    + cbn [entropy]. destruct rest as [|r2 rest]; cbn; tauto.
  - intros credentials ->. unfold try_except, bind, jira_post, lift, ret.
    eexists. split; [|split; [|split]].
    + destruct (jira_api w) as [|[e|response] rest]; [reflexivity | reflexivity |].
      destruct (status_code response =? 201)%Z; [|reflexivity].
      destruct (json response); reflexivity.
    + destruct labels as [[|l ls]|]; reflexivity.
    + destruct labels as [[|l ls]|]; reflexivity.
    + destruct labels as [[|l ls]|]; reflexivity.
Qed.

(** X9.  With credentials, an update that names no new summary,
    description or priority (each absent or empty) is refused with "No
    fields to update" before anything is sent. *)
Theorem X9_update_issue_nothing_to_update (self : jira_service.JiraService)
    (issue_key : string) (summary description priority : option string) (w : World)
    (Hauth : jira_service.auth self <> None)
    (Hnone : truthy_opt summary = false /\ truthy_opt description = false
             /\ truthy_opt priority = false) :
  jira_service.update_issue self issue_key summary description priority w
  = (inr [ ("success", VBool false); ("error", VStr "No fields to update") ], w).
Proof.
  destruct Hnone as (Hs & Hd & Hp).
  unfold jira_service.update_issue.
  destruct (jira_service.auth self); [|now elim Hauth].
  rewrite Hs, Hd, Hp. reflexivity.
Qed.

Lemma X9_update_issue_nothing_to_update_witness :
  jira_service.update_issue jira_configured "SUP-1" None (Some "") None (world [] [])
  = (inr [ ("success", VBool false); ("error", VStr "No fields to update") ],
     world [] []).
Proof.
  apply (@X9_update_issue_nothing_to_update jira_configured "SUP-1" None (Some "") None
           (world [] [])).
  - discriminate.
  - repeat split.
Defined.

(** X10.  Sending a message never raises, and its result is a success with
    a channel, a timestamp and a message, or a failure with an error,
    whatever Slack answers. *)
Theorem X10_send_message_result (self : slack_service.SlackService) (text : string)
    (channel : option string) (blocks : option (list value))
    (thread_ts : option string) (w : World) :
  exists d w',
    slack_service.send_message self text channel blocks thread_ts w = (inr d, w') /\
    message_result d.
Proof.
  unfold slack_service.send_message, message_result.
  destruct (negb (truthy_opt (slack_service.bot_token self))).
  - eexists; eexists; split; [reflexivity|]. left. cbn. tauto.
  - unfold try_except, bind, slack_post, ret.
    destruct (slack_api w) as [|[e|result] rest].
    + eexists; eexists; split; [reflexivity|]. right. cbn. tauto.
    + eexists; eexists; split; [reflexivity|]. right. cbn. tauto.
    + destruct (truthy (get result "ok")).
      * eexists; eexists; split; [reflexivity|]. left. cbn. tauto.
      * eexists; eexists; split; [reflexivity|]. right. cbn. tauto.
Qed.

End TrackerFacts.

(** ** The generation backend *)

Section GenerationFacts.
Import Py runtime examples scenarios.

(** X11.  What an available backend's answer becomes: an answer without
    results, or whose first result has no generated text, is a success with
    the empty text; an answer whose list of results is empty is reported as
    a failure ("list index out of range") with the mock text; otherwise the
    text is the first result's generated text, as it is. *)
Theorem X11_generate_response_answers (self : watsonx_service.WatsonXService)
    (prompt : string) (max_tokens : Z) (w : World)
    (response : GenerateResponse) (rest : list (Exc GenerateResponse))
    (Havailable : watsonx_service.available self = true)
    (Hanswer : watsonx_api w = inr response :: rest) :
  fst (watsonx_service.generate_response self prompt max_tokens w)
  = inr match results response with
        | Some [] =>
            [ ("success", VBool false);
              ("error", VStr "list index out of range");
              ("text", get (watsonx_service._generate_mock_response prompt) "text") ]
        | Some (Some generated_text :: _) =>
            [ ("success", VBool true);
              ("text", generated_text);
              ("model", VStr (watsonx_service.model_id self)) ]
        | Some (None :: _) | None =>
            [ ("success", VBool true);
              ("text", VStr "");
              ("model", VStr (watsonx_service.model_id self)) ]
        end.
Proof.
  unfold watsonx_service.generate_response. rewrite Havailable. cbn [negb].
  unfold try_except, bind, model_generate, lift, ret. rewrite Hanswer.
  destruct (results response) as [[|[generated_text|] l]|]; reflexivity.
Qed.

Lemma X11_generate_response_answers_witness :
  fst (watsonx_service.generate_response generation_service "Hello" 100
         empty_results_world)
  = inr [ ("success", VBool false);
          ("error", VStr "list index out of range");
          ("text", VStr watsonx_service.placeholder_text) ].
Proof.
  apply (@X11_generate_response_answers generation_service "Hello" 100
           empty_results_world {| results := Some [] |} []); reflexivity.
Defined.

(** A keyword that occurs in the head of a text occurs in the text. *)
Lemma contains_head (k a b : string) :
  contains k a = true -> contains k (a ++ b) = true.
Proof. intros H. exact (@contains_middle k "" a b H). Qed.

(** X12.  With the backend unavailable, [suggest_reply] answers with the
    canned reply for every ticket text and every category: its prompt
    always holds the word "response". *)
Theorem X12_suggest_reply_mock (self : watsonx_service.WatsonXService)
    (ticket_text category : string) (w : World)
    (Hmock : watsonx_service.available self = false) :
  watsonx_service.suggest_reply self ticket_text category w
  = (inr [ ("success", VBool true);
           ("text", VStr watsonx_service.reply_text);
           ("model", VStr "mock");
           ("mock", VBool true) ], w).
Proof.
  unfold watsonx_service.suggest_reply, watsonx_service.generate_response.
  rewrite Hmock. cbn [negb]. unfold ret, watsonx_service._generate_mock_response.
  assert (E : contains "response" (lower (watsonx_service.suggest_prompt ticket_text category))
              = true).
  { unfold watsonx_service.suggest_prompt. rewrite lower_app.
    apply contains_head. vm_compute. reflexivity. }
  rewrite E, orb_true_r. reflexivity.
Qed.

Lemma X12_suggest_reply_mock_witness :
  watsonx_service.suggest_reply (app.watsonx unconfigured) "Where is my invoice?"
    "billing" (world [] [])
  = (inr [ ("success", VBool true);
           ("text", VStr watsonx_service.reply_text);
           ("model", VStr "mock");
           ("mock", VBool true) ], world [] []).
Proof.
  apply (@X12_suggest_reply_mock (app.watsonx unconfigured) "Where is my invoice?"
           "billing" (world [] [])).
  reflexivity.
Defined.

(** A keyword without the character [c] cannot start at a place where it
    would run over a [c]. *)
Lemma prefix_sep (c : ascii) (k : string) :
  contains (String c "") k = false ->
  forall a b, prefix k (a ++ String c b) = prefix k a.
Proof.
  induction k as [|y k IH]; intros Hk a b.
  - destruct a; reflexivity.
  - cbn [contains prefix] in Hk. destruct (ascii_dec c y) as [->|Hcy].
    + destruct k; discriminate Hk.
    + cbn [orb] in Hk. destruct a as [|x a]; cbn [append prefix].
      * destruct (ascii_dec y c) as [->|_]; [now elim Hcy | reflexivity].
      * destruct (ascii_dec y x); [apply IH; exact Hk | reflexivity].
Qed.

(** Such a keyword occurs in two texts joined by [c] exactly when it
    occurs in one of them. *)
Lemma contains_sep (c : ascii) (k : string) :
  contains (String c "") k = false ->
  forall a b, contains k (a ++ String c b) = contains k a || contains k b.
Proof.
  intros Hk a b. induction a as [|x a IH].
  - change ("" ++ String c b) with (String c b). cbn [contains].
    rewrite <- (@prefix_sep c k Hk "" b). cbn [append].
    now rewrite orb_false_r.
  - change (String x a ++ String c b) with (String x (a ++ String c b)).
    cbn [contains]. rewrite IH.
    change (String x (a ++ String c b)) with (String x a ++ String c b).
    rewrite (@prefix_sep c k Hk). now rewrite orb_assoc.
Qed.

(** X13.  With the backend unavailable, [summarize_ticket] answers with
    the canned summary exactly for the ticket texts that hold neither
    "suggest" nor "response" (after lower-casing), with the canned reply
    for the others, and never with the placeholder text. *)
Theorem X13_summarize_ticket_mock (self : watsonx_service.WatsonXService)
    (ticket_text : string) (w : World)
    (Hmock : watsonx_service.available self = false) :
  watsonx_service.summarize_ticket self ticket_text w
  = (inr [ ("success", VBool true);
           ("text",
            VStr (if contains "suggest" (lower ticket_text)
                     || contains "response" (lower ticket_text)
                  then watsonx_service.reply_text
                  else watsonx_service.summary_text));
           ("model", VStr "mock");
           ("mock", VBool true) ], w).
Proof.
  unfold watsonx_service.summarize_ticket, watsonx_service.generate_response.
  rewrite Hmock. cbn [negb]. unfold ret, watsonx_service._generate_mock_response.
  set (c := ascii_of_nat 10).
  set (head := "summarize this support ticket in 2-3 sentences, highlighting the key issue and urgency."
               ++ String c (String c "ticket:")).
  set (tail := String c "summary:").
  assert (E : lower (watsonx_service.summarize_prompt ticket_text)
              = head ++ String c (lower ticket_text ++ String c tail)).
  { unfold watsonx_service.summarize_prompt. rewrite !lower_app. reflexivity. }
  assert (Hsep : forall k, contains (String c "") k = false ->
                   contains k (lower (watsonx_service.summarize_prompt ticket_text))
                   = contains k head || (contains k (lower ticket_text) || contains k tail)).
  { intros k Hk. now rewrite E, (@contains_sep c k Hk), (@contains_sep c k Hk). }
  rewrite (Hsep "suggest" eq_refl), (Hsep "response" eq_refl), (Hsep "summar" eq_refl).
  change (contains "suggest" head) with false.
  change (contains "suggest" tail) with false.
  change (contains "response" head) with false.
  change (contains "response" tail) with false.
  change (contains "summar" head) with true.
  cbn [orb]. rewrite !orb_false_r.
  destruct (contains "suggest" (lower ticket_text) || contains "response" (lower ticket_text));
    reflexivity.
Qed.

Lemma X13_summarize_ticket_mock_witness :
  watsonx_service.summarize_ticket (app.watsonx unconfigured) "My invoice is wrong"
    (world [] [])
  = (inr [ ("success", VBool true);
           ("text", VStr watsonx_service.summary_text);
           ("model", VStr "mock");
           ("mock", VBool true) ], world [] []).
Proof.
  apply (@X13_summarize_ticket_mock (app.watsonx unconfigured) "My invoice is wrong"
           (world [] [])).
  reflexivity.
Defined.

End GenerationFacts.

(** ** The handlers, step by step *)

Section HandlerFacts.
Import Py runtime app examples scenarios.

(** The generation primitive never raises and its result has a text
    entry, whatever the backend answers. *)
Lemma generate_response_returns (self : watsonx_service.WatsonXService)
    (prompt : string) (max_tokens : Z) :
  returns (watsonx_service.generate_response self prompt max_tokens)
          (fun d => exists v, dict_get "text" d = Some v).
Proof.
  unfold watsonx_service.generate_response.
  destruct (watsonx_service.available self); cbn [negb].
  - intros w. unfold try_except, bind, model_generate, lift, ret.
    destruct (watsonx_api w) as [|[e|response] rest].
    + eexists; eexists; split; [reflexivity|]. cbn. eauto.
    + eexists; eexists; split; [reflexivity|]. cbn. eauto.
    + destruct (results response) as [[|[v|] l]|];
        (eexists; eexists; split; [reflexivity|]; cbn; eauto).
  - apply returns_ret. cbn. eauto.
Qed.

(** The optional text of [classify_ticket]: read from the result of the
    generation when wanted. *)
Lemma generated_text_steps (c : M (dict value)) (wanted : bool) (w : World) :
  returns c (fun d => exists v, dict_get "text" d = Some v) ->
  exists o w',
    (if wanted
     then r <- c ;; ret (Some (dict_get_default "text" (VStr "") r))
     else ret None) w = (inr o, w') /\
    (if wanted
     then exists d v, c w = (inr d, w') /\ dict_get "text" d = Some v /\ o = Some v
     else o = None /\ w' = w).
Proof.
  intros Hc. destruct wanted.
  - destruct (Hc w) as (d & w' & E & v & Hv).
    exists (Some v), w'. split.
    + unfold bind, ret. rewrite E. unfold dict_get_default. now rewrite Hv.
    + exists d, v. repeat split; assumption.
  - exists None, w. repeat split.
Qed.

(** X14.  [classify_ticket] makes the suggestion with [suggest_reply] for
    the text and the classifier's category when it is asked for, then the
    summary with [summarize_ticket] when it is asked for, and reads the
    text entry of each result as it is.  When what it read is, for each,
    nothing, a null or a string, it returns a response with the category,
    confidence, scores and model of the classifier's result, the strings
    read as suggestion and summary, and none where nothing or a null was
    read.  When one of them is a list or a dict, the response is refused
    and the handler answers 500. *)
Theorem X14_classify_ticket_response (a : App) (request : classify_routes.TicketRequest)
    (w : World) :
  exists res suggestion w1 summary w2,
    model_service.classify (classifier a) (classify_routes.text request) = inr res /\
    (if classify_routes.include_suggestion request
     then exists d v, watsonx_service.suggest_reply (watsonx a)
                        (classify_routes.text request) (model_service.category res) w
                      = (inr d, w1)
                      /\ dict_get "text" d = Some v /\ suggestion = Some v
     else suggestion = None /\ w1 = w) /\
    (if classify_routes.include_summary request
     then exists d v, watsonx_service.summarize_ticket (watsonx a)
                        (classify_routes.text request) w1
                      = (inr d, w2)
                      /\ dict_get "text" d = Some v /\ summary = Some v
     else summary = None /\ w2 = w1) /\
    (opt_text suggestion -> opt_text summary ->
     classify_routes.classify_ticket a request w
     = (inr {| classify_routes.category := model_service.category res;
               classify_routes.confidence := model_service.confidence res;
               classify_routes.scores := model_service.scores res;
               classify_routes.model := model_service.model res;
               classify_routes.suggestion :=
                 match suggestion with Some (VStr s) => Some s | _ => None end;
               classify_routes.summary :=
                 match summary with Some (VStr s) => Some s | _ => None end |}, w2)) /\
    ((exists v, (suggestion = Some v \/ summary = Some v)
                /\ match v with VList _ | VDict _ => True | _ => False end) ->
     exists e,
       classify_routes.classify_ticket a request w
       = (inl (HTTPException 500 ("Classification error: " ++ exn_str e)), w2)).
Proof.
  destruct (classify_returns (classifier a) (classify_routes.text request)) as [res E].
  destruct (@generated_text_steps
              (watsonx_service.generate_response (watsonx a)
                 (watsonx_service.suggest_prompt (classify_routes.text request)
                    (model_service.category res)) 300)
              (classify_routes.include_suggestion request) w
              (generate_response_returns (watsonx a)
                 (watsonx_service.suggest_prompt (classify_routes.text request)
                    (model_service.category res)) 300))
    as (o1 & w1 & E1 & H1).
  destruct (@generated_text_steps
              (watsonx_service.generate_response (watsonx a)
                 (watsonx_service.summarize_prompt (classify_routes.text request)) 150)
              (classify_routes.include_summary request) w1
              (generate_response_returns (watsonx a)
                 (watsonx_service.summarize_prompt (classify_routes.text request)) 150))
    as (o2 & w2 & E2 & H2).
  assert (Hrun :
            classify_routes.classify_ticket a request w
            = match classify_routes.optional_str "suggestion" o1 with
              | inl e => (inl (HTTPException 500 ("Classification error: " ++ exn_str e)), w2)
              | inr s1 =>
                  match classify_routes.optional_str "summary" o2 with
                  | inl e =>
                      (inl (HTTPException 500 ("Classification error: " ++ exn_str e)), w2)
                  | inr s2 =>
                      (inr {| classify_routes.category := model_service.category res;
                              classify_routes.confidence := model_service.confidence res;
                              classify_routes.scores := model_service.scores res;
                              classify_routes.model := model_service.model res;
                              classify_routes.suggestion := s1;
                              classify_routes.summary := s2 |}, w2)
                  end
              end).
  { unfold classify_routes.classify_ticket, try_except, bind at 1, lift.
    rewrite E. unfold bind at 1.
    unfold watsonx_service.suggest_reply. rewrite E1.
    unfold bind at 1. unfold watsonx_service.summarize_ticket. rewrite E2.
    unfold bind, lift, ret, raise.
    destruct (classify_routes.optional_str "suggestion" o1); [reflexivity|].
    destruct (classify_routes.optional_str "summary" o2); reflexivity. }
  exists res, o1, w1, o2, w2.
  split; [exact E|]. split; [exact H1|]. split; [exact H2|]. split.
  - intros Ho1 Ho2. rewrite Hrun.
    destruct o1 as [v1|]; [destruct Ho1 as [->|[s1 ->]]|];
      (destruct o2 as [v2|]; [destruct Ho2 as [->|[s2 ->]]|]); reflexivity.
  - intros (v & Hv & Hrefused). rewrite Hrun.
    destruct v; try contradiction;
      (destruct Hv as [-> | ->]; cbn [classify_routes.optional_str];
       [eexists; reflexivity|];
       destruct (classify_routes.optional_str "suggestion" o1); eexists; reflexivity).
Qed.

(** The steps of [route_ticket], for every request. *)
Lemma route_ticket_steps (a : App) (request : route_routes.RouteRequest.t) (w : World) :
  exists res jira_issue w1 slack_message w2,
    model_service.classify (classifier a) (route_routes.RouteRequest.text request)
    = inr res /\
    (if route_routes.RouteRequest.create_jira request
     then exists issue,
            jira_issue = Some issue /\
            jira_service.create_issue (jira a)
              (route_routes.jira_summary request (model_service.category res))
              (route_routes.jira_description request) "Task"
              (dict_get_default "jira_priority" "Medium"
                 (route_routes.routing_config_for (settings a) (model_service.category res)))
              (Some [model_service.category res; "ai-triaged"]) w
            = (inr issue, w1)
     else jira_issue = None /\ w1 = w) /\
    (if route_routes.RouteRequest.send_slack request
     then exists message,
            slack_message = Some message /\
            slack_service.send_ticket_notification (settings a) (slack a)
              (route_routes.RouteRequest.ticket_id request) (model_service.category res)
              (route_routes.slack_summary request) (route_routes.jira_key_of jira_issue)
              None w1
            = (inr message, w2)
     else slack_message = None /\ w2 = w1) /\
    route_routes.route_ticket a request w
    = (inr {| route_routes.RouteResponse.ticket_id :=
                route_routes.RouteRequest.ticket_id request;
              route_routes.RouteResponse.category := model_service.category res;
              route_routes.RouteResponse.confidence := model_service.confidence res;
              route_routes.RouteResponse.jira_issue := jira_issue;
              route_routes.RouteResponse.slack_message := slack_message;
              route_routes.RouteResponse.routing_config :=
                route_routes.routing_config_for (settings a)
                  (model_service.category res) |}, w2).
Proof.
  destruct (classify_returns (classifier a) (route_routes.RouteRequest.text request))
    as [res E].
  assert (Hj : exists jira_issue w1,
             (if route_routes.RouteRequest.create_jira request
              then issue <- jira_service.create_issue (jira a)
                     (route_routes.jira_summary request (model_service.category res))
                     (route_routes.jira_description request) "Task"
                     (dict_get_default "jira_priority" "Medium"
                        (route_routes.routing_config_for (settings a)
                           (model_service.category res)))
                     (Some [model_service.category res; "ai-triaged"]) ;;
                   ret (Some issue)
              else ret None) w = (inr jira_issue, w1) /\
             (if route_routes.RouteRequest.create_jira request
              then exists issue,
                     jira_issue = Some issue /\
                     jira_service.create_issue (jira a)
                       (route_routes.jira_summary request (model_service.category res))
                       (route_routes.jira_description request) "Task"
                       (dict_get_default "jira_priority" "Medium"
                          (route_routes.routing_config_for (settings a)
                             (model_service.category res)))
                       (Some [model_service.category res; "ai-triaged"]) w
                     = (inr issue, w1)
              else jira_issue = None /\ w1 = w)).
  { destruct (route_routes.RouteRequest.create_jira request).
    - destruct (create_issue_returns (jira a)
                  (route_routes.jira_summary request (model_service.category res))
                  (route_routes.jira_description request) "Task"
                  (dict_get_default "jira_priority" "Medium"
                     (route_routes.routing_config_for (settings a)
                        (model_service.category res)))
                  (Some [model_service.category res; "ai-triaged"]) w)
        as (issue & w1 & E1 & _).
      exists (Some issue), w1. split.
      + unfold bind, ret. now rewrite E1.
      + exists issue. split; [reflexivity | exact E1].
    - exists None, w. repeat split. }
  destruct Hj as (jira_issue & w1 & Ej & Hj).
  assert (Hs : exists slack_message w2,
             (if route_routes.RouteRequest.send_slack request
              then message <- slack_service.send_ticket_notification (settings a) (slack a)
                     (route_routes.RouteRequest.ticket_id request)
                     (model_service.category res) (route_routes.slack_summary request)
                     (route_routes.jira_key_of jira_issue) None ;;
                   ret (Some message)
              else ret None) w1 = (inr slack_message, w2) /\
             (if route_routes.RouteRequest.send_slack request
              then exists message,
                     slack_message = Some message /\
                     slack_service.send_ticket_notification (settings a) (slack a)
                       (route_routes.RouteRequest.ticket_id request)
                       (model_service.category res) (route_routes.slack_summary request)
                       (route_routes.jira_key_of jira_issue) None w1
                     = (inr message, w2)
              else slack_message = None /\ w2 = w1)).
  { destruct (route_routes.RouteRequest.send_slack request).
    - destruct (send_ticket_notification_returns (settings a) (slack a)
                  (route_routes.RouteRequest.ticket_id request)
                  (model_service.category res) (route_routes.slack_summary request)
                  (route_routes.jira_key_of jira_issue) None w1)
        as (message & w2 & E2 & _).
      exists (Some message), w2. split.
      + unfold bind, ret. now rewrite E2.
      + exists message. split; [reflexivity | exact E2].
    - exists None, w1. repeat split. }
  destruct Hs as (slack_message & w2 & Es & Hs).
  exists res, jira_issue, w1, slack_message, w2.
  split; [exact E|]. split; [exact Hj|]. split; [exact Hs|].
  unfold route_routes.route_ticket, try_except, bind at 1, lift. rewrite E.
  unfold bind at 1. rewrite Ej. unfold bind at 1. rewrite Es. reflexivity.
Qed.

(** X15.  [route_ticket] never raises.  Its response echoes the ticket id,
    carries the classifier's category and confidence and the routing
    configuration of that category, holds a Jira result exactly when issue
    creation was requested and a Slack result exactly when the
    notification was requested. *)
Theorem X15_route_ticket_response (a : App) (request : route_routes.RouteRequest.t)
    (w : World) :
  exists res response w',
    model_service.classify (classifier a) (route_routes.RouteRequest.text request)
    = inr res /\
    route_routes.route_ticket a request w = (inr response, w') /\
    route_routes.RouteResponse.ticket_id response
    = route_routes.RouteRequest.ticket_id request /\
    route_routes.RouteResponse.category response = model_service.category res /\
    route_routes.RouteResponse.confidence response = model_service.confidence res /\
    route_routes.RouteResponse.routing_config response
    = route_routes.routing_config_for (settings a) (model_service.category res) /\
    (route_routes.RouteResponse.jira_issue response = None
     <-> route_routes.RouteRequest.create_jira request = false) /\
    (route_routes.RouteResponse.slack_message response = None
     <-> route_routes.RouteRequest.send_slack request = false).
Proof.
  destruct (route_ticket_steps a request w)
    as (res & jira_issue & w1 & slack_message & w2 & E & Hj & Hs & Hrun).
  eexists res, _, w2. split; [exact E|]. split; [exact Hrun|].
  cbn. repeat split; try reflexivity.
  - destruct (route_routes.RouteRequest.create_jira request); [|reflexivity].
    destruct Hj as (issue & -> & _). discriminate.
  - destruct (route_routes.RouteRequest.create_jira request); [discriminate|].
    now destruct Hj.
  - destruct (route_routes.RouteRequest.send_slack request); [|reflexivity].
    destruct Hs as (message & -> & _). discriminate.
  - destruct (route_routes.RouteRequest.send_slack request); [discriminate|].
    now destruct Hs.
Qed.

End HandlerFacts.

(** ** Routing and the notification channel *)

Section ChannelFacts.
Import Py runtime app examples scenarios.

(** The channel the notifier picks for a category is the channel of the
    routing configuration of that category. *)
Lemma channel_agrees (s : config.Settings) (category : string) :
  dict_get "slack_channel" (route_routes.routing_config_for s category)
  = Some (or_else
            (Some (or_else None
                     (dict_get_default "slack_channel" (config.SLACK_CHANNEL_ID s)
                        (dict_get_default category [] config.CATEGORY_ROUTING))))
            (config.SLACK_CHANNEL_ID s)).
Proof.
  unfold route_routes.routing_config_for, dict_get_default.
  cbn [config.CATEGORY_ROUTING dict_get].
  repeat match goal with
         | |- context [String.eqb category ?y] => destruct (String.eqb category y)
         end; try reflexivity.
  cbn. destruct (config.SLACK_CHANNEL_ID s); reflexivity.
Qed.

(** X16.  When the notifier has no token and is built from the same
    settings as the router, the channel named in the notification of a
    routed ticket is the [slack_channel] of the routing configuration in
    the same response: the category's channel for a category of the routing
    table, the configured default channel for any other. *)
Theorem X16_notification_channel (a : App) (request : route_routes.RouteRequest.t)
    (w : World)
    (Hslack : slack a = slack_service.SlackService_init (settings a))
    (Hmock : truthy_opt (config.SLACK_BOT_TOKEN (settings a)) = false)
    (Hsend : route_routes.RouteRequest.send_slack request = true) :
  exists response w' message channel,
    route_routes.route_ticket a request w = (inr response, w') /\
    route_routes.RouteResponse.slack_message response = Some message /\
    dict_get "channel" message = Some (VStr channel) /\
    dict_get "slack_channel" (route_routes.RouteResponse.routing_config response)
    = Some channel.
Proof.
  destruct (route_ticket_steps a request w)
    as (res & jira_issue & w1 & slack_message & w2 & E & Hj & Hs & Hrun).
  rewrite Hsend in Hs. destruct Hs as (message & -> & Hm).
  unfold slack_service.send_ticket_notification, slack_service.send_message in Hm.
  rewrite Hslack in Hm. cbn [slack_service.bot_token slack_service.SlackService_init] in Hm.
  rewrite Hmock in Hm. cbn [negb] in Hm. unfold ret in Hm.
  injection Hm as <- <-.
  eexists _, w1, _, _. split; [exact Hrun|]. cbn. split; [reflexivity|].
  split; [reflexivity|]. apply channel_agrees.
Qed.

Lemma X16_notification_channel_witness :
  exists response w' message channel,
    route_routes.route_ticket unconfigured empty_subject_ticket (world [5; 7]%Z [])
    = (inr response, w') /\
    route_routes.RouteResponse.slack_message response = Some message /\
    dict_get "channel" message = Some (VStr channel) /\
    dict_get "slack_channel" (route_routes.RouteResponse.routing_config response)
    = Some channel.
Proof.
  apply (@X16_notification_channel unconfigured empty_subject_ticket
           (world [5; 7]%Z [])); reflexivity.
Defined.

End ChannelFacts.

(** ** Mock mode contacts nobody *)

Section QuietFacts.
Import Py runtime app examples scenarios.

Lemma untouched_refl (w : World) : untouched w w.
Proof. repeat split. Qed.

Lemma untouched_trans (w1 w2 w3 : World) :
  untouched w1 w2 -> untouched w2 w3 -> untouched w1 w3.
Proof.
  unfold untouched. intros (A1 & B1 & C1 & D1) (A2 & B2 & C2 & D2).
  repeat split; congruence.
Qed.

Lemma quiet_ret {A} (x : A) : quiet (ret x).
Proof. intros w. apply untouched_refl. Qed.

Lemma quiet_raise {A} (e : exn) : quiet (@raise A e).
Proof. intros w. apply untouched_refl. Qed.

Lemma quiet_lift {A} (c : Exc A) : quiet (lift c).
Proof. intros w. apply untouched_refl. Qed.

Lemma quiet_bind {A B} (c : M A) (k : A -> M B) :
  quiet c -> (forall x, quiet (k x)) -> quiet (bind c k).
Proof.
  intros Hc Hk w. unfold bind. specialize (Hc w).
  destruct (c w) as [[e|x] w1]; cbn [snd] in *; [exact Hc|].
  exact (untouched_trans Hc (Hk x w1)).
Qed.

Lemma quiet_try {A} (body : M A) (handler : exn -> M A) :
  quiet body -> (forall e, quiet (handler e)) -> quiet (try_except body handler).
Proof.
  intros Hb Hh w. unfold try_except. specialize (Hb w).
  destruct (body w) as [[e|x] w1]; cbn [snd] in *; [|exact Hb].
  exact (untouched_trans Hb (Hh e w1)).
Qed.

(** A draw uses up entropy and nothing else. *)
Lemma quiet_randint (lo hi : Z) : quiet (randint lo hi).
Proof. intros w. unfold randint. destruct (entropy w); repeat split. Qed.

Ltac quiet_steps :=
  repeat first
    [ apply quiet_ret | apply quiet_raise | apply quiet_lift | apply quiet_randint
    | apply quiet_try | apply quiet_bind
    | match goal with
      | |- quiet (if ?b then _ else _) => destruct b
      | |- forall _, _ => intro
      end ].

Lemma quiet_route_each (a : App) (tickets : list route_routes.RouteRequest.t) :
  (forall request, quiet (route_routes.route_ticket a request)) ->
  forall results, quiet (route_routes.route_each a tickets results).
Proof.
  intros H. induction tickets as [|ticket tickets IH]; intros results;
    cbn [route_routes.route_each].
  - apply quiet_ret.
  - apply quiet_bind; [apply H | intros result; apply IH].
Qed.

(** X17.  In mock mode (no credentials for Jira, Slack and the generation
    backend) the classify, route and batch handlers contact nobody: they
    send no request and use up no answer of a remote service, for every
    request. *)
Theorem X17_mock_mode_contacts_nobody (a : App) (Hmock : mock_mode a = true) :
  (forall request, quiet (classify_routes.classify_ticket a request)) /\
  (forall request, quiet (route_routes.route_ticket a request)) /\
  (forall tickets, quiet (route_routes.route_tickets_batch a tickets)).
Proof.
  unfold mock_mode in Hmock.
  apply andb_true_iff in Hmock. destruct Hmock as [Hmock Hw].
  apply andb_true_iff in Hmock. destruct Hmock as [Hmock Hs].
  apply andb_true_iff in Hmock. destruct Hmock as [_ Hj].
  destruct (jira_service.auth (jira a)) eqn:Hauth; [discriminate Hj|].
  assert (Hgen : forall prompt n,
             quiet (watsonx_service.generate_response (watsonx a) prompt n)).
  { intros prompt n. unfold watsonx_service.generate_response. rewrite Hw.
    apply quiet_ret. }
  assert (Hroute : forall request, quiet (route_routes.route_ticket a request)).
  { intros request. unfold route_routes.route_ticket.
    unfold jira_service.create_issue, jira_service._create_mock_issue,
      slack_service.send_ticket_notification, slack_service.send_message.
    rewrite Hauth, Hs. quiet_steps. }
  split; [|split].
  - intros request. unfold classify_routes.classify_ticket,
      watsonx_service.suggest_reply, watsonx_service.summarize_ticket.
    quiet_steps; apply Hgen.
  - exact Hroute.
  - intros tickets. unfold route_routes.route_tickets_batch.
    apply quiet_try; [|intro; apply quiet_raise].
    apply quiet_bind; [apply quiet_route_each, Hroute | intro; apply quiet_ret].
Qed.

Lemma X17_mock_mode_contacts_nobody_witness :
  (forall request, quiet (classify_routes.classify_ticket unconfigured request)) /\
  (forall request, quiet (route_routes.route_ticket unconfigured request)) /\
  (forall tickets, quiet (route_routes.route_tickets_batch unconfigured tickets)).
Proof.
  apply (@X17_mock_mode_contacts_nobody unconfigured). reflexivity.
Defined.

End QuietFacts.
